(** * Viventium integration: a shallow embedding of [viventium_integration.py]

    The development follows the source file top to bottom: the Python values
    the adapter handles (parsed JSON, exceptions), the built-ins it calls,
    the response normalizer [_handle_response], the dispatcher
    [_make_request], the header and cookie builders, the division resolver
    [_get_division_id] and the paginator [fetch_employee_profiles].

    Conventions.
    - A Python [str] is a [string]: a sequence of 8-bit characters.
    - A Python [dict] is an association list in insertion order; a
      well-formed dict has pairwise distinct keys, and every operation is
      written so that it is total on any list.
    - Python [int] is [Z]; [len] returns a [nat].
    - An [async def] is a computation over the [World]: the state of the
      remote backend, the trace of the requests issued so far and the store
      of the caller-owned dict objects.  An exception is an [Err] outcome;
      the world reached when it was raised is kept.  Tasks are not
      interleaved: one call runs alone from start to end. *)

From Stdlib Require Import ZArith String Ascii List Bool Lia.
From Stdlib Require Import DecimalString DecimalZ.
From Stdlib Require Import Floats.SpecFloat.
Import ListNotations.

Local Open Scope list_scope.
Local Open Scope string_scope.

(* ================================================================== *)
(** * Python values *)
(* ================================================================== *)

(** What [json.loads] (and aiohttp's [response.json()]) can return. *)
#[local] Set Warnings "-register-all".
Inductive json : Type :=
| JNull
| JBool (b : bool)
| JInt (n : Z)
| JFloat (f : spec_float)
| JStr (s : string)
| JArr (items : list json)
| JObj (fields : list (string * json)).

(** The exceptions that can leave the adapter.  The two integration errors
    are declared in [submodule_integrations.utils.errors], which is not part
    of the source tree; each constructor records exactly the arguments the
    call sites of the source pass: [IntegrationAuthError] is built from one
    positional argument (the message, lines 49-53), [IntegrationAPIError]
    from an integration name, a message and a status code (lines 39-41 and
    56-62).  [OtherError] stands for an exception of any class the source
    names nowhere, by the name of its class: what [response.json()] and
    [response.text()] raise besides the two classes of line 37
    ([UnicodeDecodeError], [ValueError], [RecursionError], [LookupError], a
    payload or timeout error of the client). *)
Inductive exn : Type :=
| IntegrationAuthError (message : string)
| IntegrationAPIError (integration_name : string) (message : string)
                      (status_code : Z)
| JSONDecodeError
| ContentTypeError
| ClientError
| AttributeError
| TypeError
| IndexError
| KeyError (key : json)
| OtherError (class_name : string).

Inductive result (A : Type) : Type :=
| Ok (a : A)
| Err (e : exn).
Arguments Ok {A} a.
Arguments Err {A} e.

(** The double quote and the backslash, used to build JSON text. *)
Definition dquote : string := String (ascii_of_nat 34) EmptyString.
Definition backslash : string := String (ascii_of_nat 92) EmptyString.

(** The line feed of the f-strings of the normalizer. *)
Definition newline : string := String (ascii_of_nat 10) EmptyString.

(* ------------------------------------------------------------------ *)
(** ** Built-ins on strings and integers *)

(** [str(n)] for an [int]. *)
Definition str_int (n : Z) : string := NilEmpty.string_of_int (Z.to_int n).

(** [sep.join(parts)]. *)
Fixpoint str_join (sep : string) (parts : list string) : string :=
  match parts with
  | [] => EmptyString
  | p :: rest =>
      match rest with
      | [] => p
      | _ :: _ => p ++ sep ++ str_join sep rest
      end
  end.

(** The characters of a string, each as a one-character string (what
    iterating over a [str] yields). *)
Fixpoint str_chars (s : string) : list string :=
  match s with
  | EmptyString => []
  | String c rest => String c EmptyString :: str_chars rest
  end.

(* ------------------------------------------------------------------ *)
(** ** Built-ins on dicts *)

Section Dict.
Context {V : Type}.

(** [d.get(key)]: [None] when the key is absent. *)
Fixpoint dict_get (key : string) (d : list (string * V)) : option V :=
  match d with
  | [] => None
  | (k, v) :: rest => if String.eqb k key then Some v else dict_get key rest
  end.

(** [key in d]. *)
Definition dict_mem (key : string) (d : list (string * V)) : bool :=
  match dict_get key d with Some _ => true | None => false end.

(** [d[key] = v]: an existing key keeps its position, a new key goes last. *)
Fixpoint dict_set (key : string) (v : V) (d : list (string * V))
  : list (string * V) :=
  match d with
  | [] => [(key, v)]
  | (k, v0) :: rest =>
      if String.eqb k key then (k, v) :: rest
      else (k, v0) :: dict_set key v rest
  end.

(** The dict left once [key] is deleted. *)
Fixpoint dict_remove (key : string) (d : list (string * V))
  : list (string * V) :=
  match d with
  | [] => []
  | (k, v) :: rest =>
      if String.eqb k key then dict_remove key rest
      else (k, v) :: dict_remove key rest
  end.
End Dict.

(* ------------------------------------------------------------------ *)
(** ** Built-ins on parsed JSON *)

(** [len(x)]. *)
Definition py_len (x : json) : result nat :=
  match x with
  | JArr items => Ok (List.length items)
  | JObj fields => Ok (List.length fields)
  | JStr s => Ok (String.length s)
  | _ => Err TypeError
  end.

(** What [list.extend(x)] appends: the elements of a list, the keys of a
    dict, the characters of a string. *)
Definition py_iter (x : json) : list json :=
  match x with
  | JArr items => items
  | JObj fields => map (fun kv => JStr (fst kv)) fields
  | JStr s => map JStr (str_chars s)
  | _ => []
  end.

(** [x[0]]. *)
Definition py_first (x : json) : result json :=
  match x with
  | JArr (first :: _) => Ok first
  | JArr [] => Err IndexError
  | JStr (String c _) => Ok (JStr (String c EmptyString))
  | JStr EmptyString => Err IndexError
  | JObj _ => Err (KeyError (JInt 0))
  | _ => Err TypeError
  end.

(** [x.get(key)]: only a dict has the method. *)
Definition py_get (x : json) (key : string) : result json :=
  match x with
  | JObj fields =>
      match dict_get key fields with
      | Some v => Ok v
      | None => Ok JNull
      end
  | _ => Err AttributeError
  end.

(** [x.pop(key)] with no default, keeping the object as it is afterwards:
    a dict raises [KeyError] when the key is absent; [list.pop] rejects a
    [str] index; nothing else has the method. *)
Definition py_pop (x : json) (key : string) : result json :=
  match x with
  | JObj fields =>
      if dict_mem key fields then Ok (JObj (dict_remove key fields))
      else Err (KeyError (JStr key))
  | JArr _ => Err TypeError
  | _ => Err AttributeError
  end.

(* ------------------------------------------------------------------ *)
(** ** Rendering values as text *)

(** The renderings of the Python runtime and of aiohttp that the source
    reaches through f-strings and [json.dumps] but that are no code of the
    adapter: [repr] of a [str] (its quoting and escaping), [repr] of a
    [float], and [str()] of the header multidict of a response.  They are
    parameters of the development. *)
Class PyRuntime : Type := {
  repr_str : string -> string;
  repr_float : spec_float -> string;
  str_headers : list (string * string) -> string
}.

Section Rendering.
Context `{Rt : PyRuntime}.

(** [repr(x)] of a parsed JSON value. *)
Fixpoint py_repr (x : json) : string :=
  match x with
  | JNull => "None"
  | JBool true => "True"
  | JBool false => "False"
  | JInt n => str_int n
  | JFloat f => repr_float f
  | JStr s => repr_str s
  | JArr items => "[" ++ str_join ", " (map py_repr items) ++ "]"
  | JObj fields =>
      "{" ++ str_join ", "
               (map (fun kv : string * json => let (k, v) := kv in
                               repr_str k ++ ": " ++ py_repr v) fields)
          ++ "}"
  end.

(** [str(x)], what an f-string field [{x}] inserts: a [str] as it is,
    anything else as its [repr]. *)
Definition py_str (x : json) : string :=
  match x with
  | JStr s => s
  | _ => py_repr x
  end.

(** [str(x)] of an optional string ([None] or a [str]). *)
Definition str_opt (x : option string) : string :=
  match x with
  | Some s => s
  | None => "None"
  end.
End Rendering.

(** One lower-case hexadecimal digit. *)
Definition hex_digit (n : nat) : string :=
  String (match n with
          | 0 => "0" | 1 => "1" | 2 => "2" | 3 => "3" | 4 => "4" | 5 => "5"
          | 6 => "6" | 7 => "7" | 8 => "8" | 9 => "9" | 10 => "a" | 11 => "b"
          | 12 => "c" | 13 => "d" | 14 => "e" | _ => "f"
          end)%char EmptyString.

(** How [json.dumps] (with [ensure_ascii], its default) writes one
    character inside a string. *)
Definition json_escape_char (c : ascii) : string :=
  let n := nat_of_ascii c in
  if Nat.eqb n 34 then backslash ++ dquote
  else if Nat.eqb n 92 then backslash ++ backslash
  else if Nat.eqb n 10 then backslash ++ "n"
  else if Nat.eqb n 13 then backslash ++ "r"
  else if Nat.eqb n 9 then backslash ++ "t"
  else if Nat.eqb n 8 then backslash ++ "b"
  else if Nat.eqb n 12 then backslash ++ "f"
  else if (Nat.leb 32 n && Nat.leb n 126)%bool then String c EmptyString
  else backslash ++ "u00" ++ hex_digit (n / 16) ++ hex_digit (n mod 16).

Fixpoint json_escape (s : string) : string :=
  match s with
  | EmptyString => EmptyString
  | String c rest => json_escape_char c ++ json_escape rest
  end.

Definition json_quote (s : string) : string :=
  dquote ++ json_escape s ++ dquote.

Section Dumps.
Context `{Rt : PyRuntime}.

(** [json.dumps(x)] with the default separators. *)
Fixpoint json_dumps (x : json) : string :=
  match x with
  | JNull => "null"
  | JBool true => "true"
  | JBool false => "false"
  | JInt n => str_int n
  | JFloat S754_nan => "NaN"
  | JFloat (S754_infinity false) => "Infinity"
  | JFloat (S754_infinity true) => "-Infinity"
  | JFloat f => repr_float f
  | JStr s => json_quote s
  | JArr items => "[" ++ str_join ", " (map json_dumps items) ++ "]"
  | JObj fields =>
      "{" ++ str_join ", "
               (map (fun kv : string * json => let (k, v) := kv in
                               json_quote k ++ ": " ++ json_dumps v) fields)
          ++ "}"
  end.
End Dumps.

(* ================================================================== *)
(** * HTTP *)
(* ================================================================== *)

(** One outgoing call: [method], [url] and the keyword arguments
    [headers=] and [params=] of [_make_request]. *)
Record request : Type := {
  req_method : string;
  req_url : string;
  req_headers : list (string * string);
  req_params : list (string * string)
}.

(** What [response.json()] does: it returns the parsed body, or raises
    [json.decoder.JSONDecodeError] (malformed text),
    [aiohttp.ContentTypeError] (wrong content type), or an exception of
    another class: the body cannot be read to its end, its bytes cannot be
    decoded, the text is nested too deep. *)
Inductive json_outcome : Type :=
| Parsed (body : json)
| Malformed
| WrongContentType
| Raises (class_name : string).

(** What [response.text()] does: it returns the body as text, or raises
    (the body cannot be read, its bytes cannot be decoded). *)
Inductive text_outcome : Type :=
| Text (body : string)
| TextRaises (class_name : string).

(** An [aiohttp.ClientResponse], by what the source reads of it. *)
Record http_response : Type := {
  status : Z;
  reason : option string;
  headers : list (string * string);
  text_of : text_outcome;
  json_of : json_outcome
}.

(** [await response.json()]. *)
Definition response_json (response : http_response) : result json :=
  match json_of response with
  | Parsed body => Ok body
  | Malformed => Err JSONDecodeError
  | WrongContentType => Err ContentTypeError
  | Raises class_name => Err (OtherError class_name)
  end.

(** [await response.text()]. *)
Definition response_text (response : http_response) : result string :=
  match text_of response with
  | Text body => Ok body
  | TextRaises class_name => Err (OtherError class_name)
  end.

(** [x in [a, b, ...]] on integers. *)
Definition Z_in (x : Z) (l : list Z) : bool := existsb (Z.eqb x) l.

(** The remote side.  [backend] is the type of its states and
    [session_request] one round trip of the default transport
    ([aiohttp.ClientSession().request], lines 29-30): it answers with a
    response or raises, and moves the backend on. *)
Class Network : Type := {
  backend : Type;
  session_request : backend -> request -> result http_response * backend
}.

(* ================================================================== *)
(** * The world and the computations over it *)
(* ================================================================== *)

(** A caller-owned dict object is named by its address. *)
Definition loc : Type := nat.

Section Adapter.
Context `{Rt : PyRuntime} `{Net : Network}.

Record World : Type := {
  remote : backend;
  sent : list request;
  dicts : loc -> list (string * string)
}.

(** An awaitable that returns an [A]. *)
Definition M (A : Type) : Type := World -> result A * World.

Definition ret {A : Type} (a : A) : M A := fun w => (Ok a, w).

Definition bind {A B : Type} (m : M A) (k : A -> M B) : M B :=
  fun w =>
    match m w with
    | (Ok a, w') => k a w'
    | (Err e, w') => (Err e, w')
    end.

Definition lift {A : Type} (r : result A) : M A := fun w => (r, w).

(** [cookies.items()] of the dict object at [l]: a read of the store. *)
Definition dict_items (l : loc) : M (list (string * string)) :=
  fun w => (Ok (dicts w l), w).

(** One round trip through a transport: the request joins the trace and
    the backend moves on. *)
Definition round_trip
    (transport : backend -> request -> result http_response * backend)
    (req : request) : M http_response :=
  fun w =>
    let (r, s) := transport (remote w) req in
    (r, {| remote := s; sent := (sent w ++ [req])%list; dicts := dicts w |}).

Notation "x <- m ;; k" := (bind m (fun x => k))
  (at level 61, m at next level, right associativity).

(* ---------------------------------------------------------------- *)
(** ** The adapter object *)

(** [self].  [integration_name] is the attribute the base class
    [Integration] (not part of the source tree) keeps of the argument of
    [super().__init__]; line 57 reads it.  An injected network requester
    is represented by its round trip: by its contract it performs the
    call, hands the raw response to the [process_response] callback and
    returns what the callback returns. *)
Record ViventiumIntegration : Type := {
  integration_name : string;
  user_agent : string;
  network_requester :
    option (backend -> request -> result http_response * backend);
  url : string
}.

(** Modelled from the spec: the constructor of the base class
    [Integration], which is not part of the source tree, is taken to keep
    its argument as the attribute [integration_name], the integration name
    the errors carry.  The rest is [__init__] as written (lines 10-14). *)
Definition init (user_agent : string) : ViventiumIntegration :=
  {| integration_name := "viventium";
     user_agent := user_agent;
     network_requester := None;
     url := "https://hcm.viventium.com/api" |}.

(** [initialize] (lines 16-17). *)
Definition initialize (self : ViventiumIntegration)
    (requester : option (backend -> request -> result http_response * backend))
  : ViventiumIntegration :=
  {| integration_name := integration_name self;
     user_agent := user_agent self;
     network_requester := requester;
     url := url self |}.

(* ---------------------------------------------------------------- *)
(** ** Response normalizer (lines 33-62) *)

Definition _handle_response (self : ViventiumIntegration)
    (response : http_response) : result json :=
  if Z_in (status response) [200; 201; 204]%Z then
    match response_json response with
    | Ok body => Ok body
    | Err JSONDecodeError | Err ContentTypeError =>
        match response_text response with
        | Ok message =>
            Err (IntegrationAPIError "viventium" message (status response))
        | Err e => Err e
        end
    | Err e => Err e
    end
  else
    let status_code := status response in
    if Z_in status_code [400; 401]%Z then
      let reason := reason response in
      match response_json response with
      | Err e => Err e
      | Ok r_json =>
          match py_get r_json "message" with
          | Err e => Err e
          | Ok message =>
              match py_get r_json "error_type" with
              | Err e => Err e
              | Ok error_type =>
                  Err (IntegrationAuthError
                         ("ERSP: " ++ str_int status_code ++ " - "
                            ++ str_opt reason ++ " " ++ newline
                            ++ "message: " ++ py_str message ++ " " ++ newline
                            ++ "error_type: " ++ py_str error_type))
              end
          end
      end
    else
      match response_json response with
      | Err e => Err e
      | Ok r_json =>
          match py_get r_json "message" with
          | Err e => Err e
          | Ok message =>
              match py_get r_json "error_type" with
              | Err e => Err e
              | Ok error_type =>
                  Err (IntegrationAPIError
                         (integration_name self)
                         ("ersp: " ++ str_int status_code ++ " - "
                            ++ str_headers (headers response) ++ " " ++ newline
                            ++ "message: " ++ py_str message ++ " " ++ newline
                            ++ "error_type: " ++ py_str error_type)
                         status_code)
              end
          end
      end.

(* ---------------------------------------------------------------- *)
(** ** Request dispatcher (lines 19-31) *)

Definition _make_request (self : ViventiumIntegration)
    (method url : string) (headers params : list (string * string))
  : M json :=
  let req := {| req_method := method; req_url := url;
                req_headers := headers; req_params := params |} in
  match network_requester self with
  | Some requester =>
      response <- round_trip requester req ;;
      lift (_handle_response self response)
  | None =>
      response <- round_trip session_request req ;;
      lift (_handle_response self response)
  end.

(* ---------------------------------------------------------------- *)
(** ** Header and cookie builders (lines 64-81) *)

Definition _setup_headers (self : ViventiumIntegration)
    (xsrf_token : string) : list (string * string) :=
  [ ("Host", "hcm.viventium.com");
    ("User-Agent", user_agent self);
    ("Accept", "application/json, text/plain, */*");
    ("Accept-Language", "en-GB,en;q=0.5");
    ("X-XSRF-TOKEN", xsrf_token);
    ("Connection", "keep-alive");
    ("Referer", "https://hcm.viventium.com/apps/vm/");
    ("Sec-Fetch-Dest", "empty");
    ("Sec-Fetch-Mode", "cors");
    ("Sec-Fetch-Site", "same-origin") ].

Definition make_cookie_string (cookies : list (string * string)) : string :=
  str_join "; "
    (map (fun kv : string * string => let (key, value) := kv in
                                      key ++ "=" ++ value) cookies).

(** The [cookies] argument: a reference to the caller's dict, or a
    string. *)
Inductive cookies_arg : Type :=
| CookiesDict (l : loc)
| CookiesStr (s : string).

(** Lines 103-104 and 115-116: [if type(cookies) is dict: cookies =
    self.make_cookie_string(cookies)], the value the local name [cookies]
    is bound to afterwards. *)
Definition cookie_header (cookies : cookies_arg) : M string :=
  match cookies with
  | CookiesDict l =>
      items <- dict_items l ;;
      ret (make_cookie_string items)
  | CookiesStr s => ret s
  end.

(* ---------------------------------------------------------------- *)
(** ** Division resolver (lines 83-109) *)

Definition _get_division_id (self : ViventiumIntegration)
    (token : string) (cookies : cookies_arg) : M json :=
  let endpoint := "paystream/v1/divisions" in
  let path := url self ++ "/" ++ endpoint in
  let params := [("pageNumber", "1"); ("pageSize", "1000")] in
  let headers := _setup_headers self token in
  cookies <- cookie_header cookies ;;
  let headers := dict_set "Cookie" cookies headers in
  response <- _make_request self "GET" path headers params ;;
  this_division <- lift (py_first response) ;;
  lift (py_get this_division "id").

(* ---------------------------------------------------------------- *)
(** ** Employee profile paginator (lines 111-165) *)

(** The dict [query_options] of lines 125-143. *)
Definition query_options (page : Z) : json :=
  JObj
    [ ("query", JStr EmptyString);
      ("filterParameters",
        JArr [ JObj [ ("fieldName", JStr "EmployeeStatus");
                      ("filterType", JStr "In");
                      ("parsableValue",
                        JStr ("[" ++ dquote ++ "Active" ++ dquote ++ "]")) ] ]);
      ("sortParameters",
        JArr [ JObj [ ("fieldName", JStr "EmployeeNumber");
                      ("direction", JStr "Ascending") ] ]);
      ("pageSize", JInt 100);
      ("whereParameters", JArr []);
      ("pageNumber", JInt page) ].

(** The [params] of the grid request for one page (lines 145-147). *)
Definition grid_params (page : Z) : list (string * string) :=
  [("queryOptions", json_dumps (query_options page))].

(** The [while True] loop of lines 124-160, entered with the current
    [page] and [employee_list].  [fuel] bounds the number of iterations;
    [None] means the bound was reached with the loop still running.  The
    [print] of line 157 writes to standard output only and is left out. *)
Fixpoint paginate (fuel : nat) (self : ViventiumIntegration)
    (path : string) (headers : list (string * string))
    (page : Z) (employee_list : list json) (w : World)
  : option (result (list json) * World) :=
  match fuel with
  | O => None
  | S fuel' =>
      match _make_request self "GET" path headers (grid_params page) w with
      | (Err e, w') => Some (Err e, w')
      | (Ok employees, w') =>
          match py_len employees with
          | Err e => Some (Err e, w')
          | Ok n =>
              if Nat.ltb 0 n then
                let employee_list :=
                  (employee_list ++ py_iter employees)%list in
                if Nat.ltb n 100 then Some (Ok employee_list, w')
                else paginate fuel' self path headers (page + 1)%Z
                              employee_list w'
              else Some (Ok employee_list, w')
          end
      end
  end.

(** The [for] loop of lines 162-163: every record of the list, in order,
    has [pop('DivisionKey')] called on it; the first exception ends the
    loop.  The result is the list as it stands after the loop.  The
    records are distinct objects, every page being a parse of its own, so
    a deletion in one is seen in no other. *)
Fixpoint pop_division_keys (employee_list : list json)
  : result (list json) :=
  match employee_list with
  | [] => Ok []
  | employee :: rest =>
      match py_pop employee "DivisionKey" with
      | Err e => Err e
      | Ok employee' =>
          match pop_division_keys rest with
          | Err e => Err e
          | Ok rest' => Ok (employee' :: rest')
          end
      end
  end.

(** The path of the grid endpoint (lines 119-120). *)
Definition grid_path (self : ViventiumIntegration) (division_id : json)
  : string :=
  let endpoint :=
    "paystream/v1/divisions/" ++ py_str division_id
      ++ "/grids/EmployeeProfile" in
  url self ++ "/" ++ endpoint.

Definition fetch_employee_profiles (fuel : nat)
    (self : ViventiumIntegration) (xsrf_token : string)
    (cookies : cookies_arg) (w : World)
  : option (result (list json) * World) :=
  match _get_division_id self xsrf_token cookies w with
  | (Err e, w1) => Some (Err e, w1)
  | (Ok division_id, w1) =>
      let headers := _setup_headers self xsrf_token in
      match cookie_header cookies w1 with
      | (Err e, w2) => Some (Err e, w2)
      | (Ok cookies, w2) =>
          let headers := dict_set "Cookie" cookies headers in
          let path := grid_path self division_id in
          match paginate fuel self path headers 1%Z [] w2 with
          | None => None
          | Some (Err e, w3) => Some (Err e, w3)
          | Some (Ok employee_list, w3) =>
              Some (pop_division_keys employee_list, w3)
          end
      end
  end.

End Adapter.

(* ================================================================== *)
(** * Concrete runtimes and backends for the runs below *)
(* ================================================================== *)

(** A runtime for the concrete runs: [repr] of a string that holds no
    quote, backslash or control character (the runs render no other), and
    the multidict rendering of aiohttp over it.  No run renders a float. *)
Definition plain_repr_str (s : string) : string := "'" ++ s ++ "'".

Definition plain_runtime : PyRuntime :=
  {| repr_str := plain_repr_str;
     repr_float := fun _ => "nan";
     str_headers := fun hs =>
       "<CIMultiDictProxy("
         ++ str_join ", "
              (map (fun kv : string * string =>
                      let (k, v) := kv in
                      plain_repr_str k ++ ": " ++ plain_repr_str v) hs)
         ++ ")>" |}.

(** A response with a JSON body. *)
Definition json_response (code : Z) (phrase : string) (body : json)
  : http_response :=
  {| status := code;
     reason := Some phrase;
     headers := [("Content-Type", "application/json")];
     text_of := Text (@json_dumps plain_runtime body);
     json_of := Parsed body |}.

(** A response whose body is an HTML page. *)
Definition html_response (code : Z) (phrase : string) (page : string)
  : http_response :=
  {| status := code;
     reason := Some phrase;
     headers := [("Content-Type", "text/html")];
     text_of := Text page;
     json_of := WrongContentType |}.

(** A response that announces JSON and holds text that is none. *)
Definition garbled_response (code : Z) (phrase : string) (body : string)
  : http_response :=
  {| status := code;
     reason := Some phrase;
     headers := [("Content-Type", "application/json")];
     text_of := Text body;
     json_of := Malformed |}.

(** A response that announces JSON in UTF-8 and holds bytes that are no
    UTF-8: neither [json()] nor [text()] can decode them. *)
Definition undecodable_response (code : Z) (phrase : string)
  : http_response :=
  {| status := code;
     reason := Some phrase;
     headers := [("Content-Type", "application/json; charset=utf-8")];
     text_of := TextRaises "UnicodeDecodeError";
     json_of := Raises "UnicodeDecodeError" |}.

(** The records of page [page] (from 1) of a grid of [records], 100 to a
    page. *)
Definition page_slice (records : list json) (page : nat) : list json :=
  firstn 100 (skipn ((page - 1) * 100) records).

(** The page a grid request asks for, among the pages 1 to [last]: the one
    whose [queryOptions] text the request carries. *)
Definition requested_page (last : nat) (params : list (string * string))
  : option nat :=
  find (fun p =>
          match dict_get "queryOptions" params with
          | Some q => String.eqb q (@json_dumps plain_runtime
                                      (query_options (Z.of_nat p)))
          | None => false
          end)
       (seq 1 last).

(** A mock of the vendor API: it lists [divisions] at the divisions
    endpoint and serves [records], 100 to a page, at the grid endpoint of
    the division [division_id]; anything else is refused. *)
Definition paged_answer (divisions : json) (division_id : string)
    (records : list json) (req : request) : http_response :=
  let base := "https://hcm.viventium.com/api/paystream/v1/divisions" in
  if negb (String.eqb (req_method req) "GET") then
    json_response 405 "Method Not Allowed"
      (JObj [("message", JStr "GET only")])
  else if String.eqb (req_url req) base then
    json_response 200 "OK" divisions
  else if String.eqb (req_url req)
            (base ++ "/" ++ division_id ++ "/grids/EmployeeProfile") then
    match requested_page (List.length records / 100 + 2) (req_params req) with
    | Some p => json_response 200 "OK" (JArr (page_slice records p))
    | None =>
        json_response 422 "Unprocessable Entity"
          (JObj [("message", JStr "bad queryOptions")])
    end
  else
    json_response 404 "Not Found" (JObj [("message", JStr "no such path")]).

Definition paged_network (divisions : json) (division_id : string)
    (records : list json) : Network :=
  {| backend := unit;
     session_request := fun s req =>
       (Ok (paged_answer divisions division_id records req), s) |}.

(** An employee record as the grid serves it. *)
Definition employee (number : nat) : json :=
  JObj [ ("EmployeeNumber", JInt (Z.of_nat number));
         ("DivisionKey", JStr "42");
         ("EmployeeStatus", JStr "Active") ].

Definition employees (count : nat) : list json := map employee (seq 1 count).

(** The divisions listing of an account with one division, 42. *)
Definition one_division : json := JArr [JObj [("id", JStr "42")]].

(** The mock vendor holding [count] active employees in division 42. *)
Definition vendor (count : nat) : Network :=
  paged_network one_division "42" (employees count).

(** Three responses a vendor can give to a rejected or failed call. *)
Definition unauthorized : http_response :=
  json_response 401 "Unauthorized"
    (JObj [("message", JStr "session expired"); ("error_type", JStr "auth")]).

Definition unauthorized_page : http_response :=
  html_response 401 "Unauthorized" "<html>Please sign in</html>".

Definition bad_gateway_page : http_response :=
  html_response 502 "Bad Gateway" "<html>Bad Gateway</html>".

Definition server_error : http_response :=
  json_response 500 "Internal Server Error"
    (JObj [("message", JStr "boom"); ("error_type", JStr "internal")]).

(** How many records the vendor holding [count] employees returns for a
    request, when it answers with a sequence. *)
Definition served_size (count : nat) (req : request) : option nat :=
  match json_of (paged_answer one_division "42" (employees count) req) with
  | Parsed (JArr records) => Some (List.length records)
  | _ => None
  end.

(** What the statements about a whole run read off it, when it returned a
    list: the number of records, the URLs of the requests sent, and, for
    the requests after the first one, their parameters and the number of
    records each was answered with. *)
Definition run_summary `{Net : Network} (size : request -> option nat)
    (run : option (result (list json) * World))
  : option (nat * list string * list (list (string * string))
            * list (option nat)) :=
  match run with
  | Some (Ok rs, w') =>
      Some (List.length rs, map req_url (sent w'),
            map req_params (tl (sent w')), map size (tl (sent w')))
  | _ => None
  end.

(** The grid endpoint of division 42. *)
Definition grid_url : string :=
  "https://hcm.viventium.com/api/paystream/v1/divisions/42/grids/EmployeeProfile".

(** Two records the grid could serve with no [DivisionKey] entry. *)
Definition bare_employees : list json :=
  [ JObj [("EmployeeNumber", JInt 1); ("EmployeeStatus", JStr "Active")];
    JObj [("EmployeeNumber", JInt 2); ("EmployeeStatus", JStr "Active")] ].

(** The world a run starts in: nothing sent yet; the caller holds one
    cookie dict, at address 0. *)
Definition start `{Net : Network} (s : backend) : World :=
  {| remote := s;
     sent := [];
     dicts := fun l => match l with
                       | O => [("sess", "abc"); ("theme", "dark")]
                       | _ => []
                       end |}.

(** The divisions listing of an account with the divisions D1 and D2. *)
Definition two_divisions : json :=
  JArr [JObj [("id", JStr "D1")]; JObj [("id", JStr "D2")]].

(** A vendor whose account has those two divisions, and an adapter
    talking to it. *)
Definition listing_vendor : Network := paged_network two_divisions "D1" [].

Definition listing_adapter : ViventiumIntegration (Net := listing_vendor) :=
  initialize (init "UA") None.

(** A vendor that serves [bare_employees]. *)
Definition bare_vendor : Network :=
  paged_network one_division "42" bare_employees.

(** The adapter of the runs, its headers, and the worlds a run from
    [start] goes through: after the division was resolved, and after one
    more grid request. *)
Definition demo_headers (net : Network) : list (string * string) :=
  dict_set "Cookie" "sess=abc; theme=dark"
    (_setup_headers (Net := net) (init "UA") "tok123").

Definition resolved (count : nat) : World (Net := vendor count) :=
  snd (_get_division_id (Rt := plain_runtime) (Net := vendor count)
         (init "UA") "tok123" (CookiesDict 0) (start (Net := vendor count) tt)).

Definition paged (count : nat) (page : Z) (w : World (Net := vendor count))
  : World (Net := vendor count) :=
  snd (_make_request (Rt := plain_runtime) (Net := vendor count)
         (init "UA") "GET" grid_url (demo_headers (vendor count))
         (grid_params (Rt := plain_runtime) page) w).

(** A backend that plays a script: every request, whatever it asks,
    takes the next answer of the script; past its end the connection
    fails. *)
Definition scripted_network : Network :=
  {| backend := list (result http_response);
     session_request := fun script _ =>
       match script with
       | [] => (Err ClientError, [])
       | answer :: rest => (answer, rest)
       end |}.

(** A vendor that ignores the page number: it lists the one division and
    answers every other request with the same full page of 100 records. *)
Definition stuck_vendor : Network :=
  {| backend := unit;
     session_request := fun s req =>
       if String.eqb (req_url req)
            "https://hcm.viventium.com/api/paystream/v1/divisions"
       then (Ok (json_response 200 "OK" one_division), s)
       else (Ok (json_response 200 "OK" (JArr (employees 100))), s) |}.

(** A divisions listing whose only entry has no [id]. *)
Definition nameless_division : json := JArr [JObj [("name", JStr "HQ")]].

(** An error envelope some APIs send with status 200. *)
Definition envelope : json :=
  JObj [("error", JStr "maintenance"); ("retryAfter", JInt 30)].

(* ================================================================== *)
(** * Vocabulary of the statements *)
(* ================================================================== *)

(** [needle in hay] on strings. *)
Fixpoint str_contains (needle hay : string) : bool :=
  if String.prefix needle hay then true
  else match hay with
       | EmptyString => false
       | String _ rest => str_contains needle rest
       end.

(** The value of [r_json.get(key)] on a dict. *)
Definition field (key : string) (fields : list (string * json)) : json :=
  match dict_get key fields with
  | Some v => v
  | None => JNull
  end.

(** The integration name an exception was built with, if any. *)
Definition error_integration_name (e : exn) : option string :=
  match e with
  | IntegrationAPIError name _ _ => Some name
  | _ => None
  end.

Definition is_api_error (e : exn) : bool :=
  match e with
  | IntegrationAPIError _ _ _ => true
  | _ => false
  end.

Definition is_auth_error (e : exn) : bool :=
  match e with
  | IntegrationAuthError _ => true
  | _ => false
  end.

Section Vocabulary.
Context `{Rt : PyRuntime} `{Net : Network}.

(** The transport [_make_request] goes through. *)
Definition transport_of (self : ViventiumIntegration)
  : backend -> request -> result http_response * backend :=
  match network_requester self with
  | Some requester => requester
  | None => session_request
  end.

(** The world after one more request was sent and the backend moved to
    [s]. *)
Definition after_request (w : World) (req : request) (s : backend)
  : World :=
  {| remote := s; sent := (sent w ++ [req])%list; dicts := dicts w |}.

(** The text bound to the local name [cookies] once lines 103-104 (or
    115-116) have run in the world [w]. *)
Definition cookie_text (cookies : cookies_arg) (w : World) : string :=
  match cookies with
  | CookiesDict l => make_cookie_string (dicts w l)
  | CookiesStr s => s
  end.

(** The headers both the resolver and the paginator send. *)
Definition request_headers (self : ViventiumIntegration)
    (xsrf_token : string) (cookie : string) : list (string * string) :=
  dict_set "Cookie" cookie (_setup_headers self xsrf_token).

(** The one request of the division resolver. *)
Definition division_request (self : ViventiumIntegration)
    (token : string) (cookie : string) : request :=
  {| req_method := "GET";
     req_url := url self ++ "/paystream/v1/divisions";
     req_headers := request_headers self token cookie;
     req_params := [("pageNumber", "1"); ("pageSize", "1000")] |}.

(** The grid request for one page. *)
Definition grid_request (path : string) (headers : list (string * string))
    (page : Z) : request :=
  {| req_method := "GET";
     req_url := path;
     req_headers := headers;
     req_params := grid_params page |}.

(** Starting in [w] with the request for page [page], the dispatcher
    returns the sequences [full] one after the other, then the sequence
    [last], and the world is [w'] after that. *)
Fixpoint grid_pages_served (self : ViventiumIntegration) (path : string)
    (headers : list (string * string)) (page : Z)
    (full : list (list json)) (last : list json) (w w' : World) : Prop :=
  match full with
  | [] =>
      _make_request self "GET" path headers (grid_params page) w
      = (Ok (JArr last), w')
  | records :: more =>
      exists w1,
        _make_request self "GET" path headers (grid_params page) w
        = (Ok (JArr records), w1)
        /\ grid_pages_served self path headers (page + 1)%Z more last w1 w'
  end.
End Vocabulary.

(** A record with its [DivisionKey] entry deleted. *)
Definition without_division_key (record : json) : json :=
  match record with
  | JObj fields => JObj (dict_remove "DivisionKey" fields)
  | _ => record
  end.

(** The record is a dict that has a [DivisionKey] entry. *)
Definition has_division_key (record : json) : bool :=
  match record with
  | JObj fields => dict_mem "DivisionKey" fields
  | _ => false
  end.

(** [c in s] for one character. *)
Fixpoint has_char (c : ascii) (s : string) : bool :=
  match s with
  | EmptyString => false
  | String c' rest => (Ascii.eqb c c' || has_char c rest)%bool
  end.

(** Reading a cookie string back, following the words of the
    specification ("key=value pairs joined by a semicolon and a space"):
    [split_pairs] cuts the text at every semicolon that a space follows,
    as [str.split] does, and [split_pair] cuts a piece at its first equals
    sign. *)
Fixpoint split_pairs (s : string) : list string :=
  match s with
  | EmptyString => [EmptyString]
  | String c rest =>
      let keep :=
        match split_pairs rest with
        | piece :: pieces => String c piece :: pieces
        | [] => [String c EmptyString]
        end in
      match rest with
      | String c' rest' =>
          if (Ascii.eqb c ";" && Ascii.eqb c' " ")%bool
          then EmptyString :: split_pairs rest'
          else keep
      | EmptyString => keep
      end
  end.

Fixpoint split_pair (piece : string) : string * string :=
  match piece with
  | EmptyString => (EmptyString, EmptyString)
  | String c rest =>
      if Ascii.eqb c "=" then (EmptyString, rest)
      else let (k, v) := split_pair rest in (String c k, v)
  end.

Definition parse_cookie_string (s : string) : list (string * string) :=
  match s with
  | EmptyString => []
  | _ => map split_pair (split_pairs s)
  end.

(** The pieces of a cookie string. *)
Definition pair_text (kv : string * string) : string :=
  fst kv ++ "=" ++ snd kv.

(** Keys and values as cookies have them: no semicolon, and no equals sign
    in a key. *)
Definition plain_pair (kv : string * string) : Prop :=
  has_char ";" (fst kv) = false
  /\ has_char "=" (fst kv) = false
  /\ has_char ";" (snd kv) = false.

(** The page numbers [page], [page + 1], ..., [count] of them. *)
Definition page_numbers (page : Z) (count : nat) : list Z :=
  map (fun i => (page + Z.of_nat i)%Z) (seq 0 count).

(** The names of the headers of a request, in the order they are set
    (lines 65-76, then line 105 or 117). *)
Definition header_names : list string :=
  [ "Host"; "User-Agent"; "Accept"; "Accept-Language"; "X-XSRF-TOKEN";
    "Connection"; "Referer"; "Sec-Fetch-Dest"; "Sec-Fetch-Mode";
    "Sec-Fetch-Site"; "Cookie" ].

(** A parsed JSON value that is no sequence, mapping or string. *)
Definition is_scalar (x : json) : bool :=
  match x with
  | JNull | JBool _ | JInt _ | JFloat _ => true
  | _ => false
  end.

(** The parsed JSON value is a dict. *)
Definition is_object (x : json) : bool :=
  match x with
  | JObj _ => true
  | _ => false
  end.

Section FailureVocabulary.
Context `{Rt : PyRuntime} `{Net : Network}.

(** Starting in [w] with the request for page [page], the dispatcher
    returns the sequences [full] one after the other and then raises [e],
    and the world is [w'] after that. *)
Fixpoint grid_pages_then_failure (self : ViventiumIntegration)
    (path : string) (headers : list (string * string)) (page : Z)
    (full : list (list json)) (e : exn) (w w' : World) : Prop :=
  match full with
  | [] =>
      _make_request self "GET" path headers (grid_params page) w
      = (Err e, w')
  | records :: more =>
      exists w1,
        _make_request self "GET" path headers (grid_params page) w
        = (Ok (JArr records), w1)
        /\ grid_pages_then_failure self path headers (page + 1)%Z more e
             w1 w'
  end.
End FailureVocabulary.

(** The text [json.dumps] gives for [query_options] up to the page
    number, written out character by character; the page number and a
    closing brace follow it. *)
Definition quoted (s : string) : string := dquote ++ s ++ dquote.

Definition query_options_head : string :=
  "{" ++ quoted "query" ++ ": " ++ quoted EmptyString ++ ", "
    ++ quoted "filterParameters" ++ ": [{"
    ++ quoted "fieldName" ++ ": " ++ quoted "EmployeeStatus" ++ ", "
    ++ quoted "filterType" ++ ": " ++ quoted "In" ++ ", "
    ++ quoted "parsableValue" ++ ": "
    ++ quoted ("[" ++ backslash ++ dquote ++ "Active" ++ backslash ++ dquote
                 ++ "]")
    ++ "}], "
    ++ quoted "sortParameters" ++ ": [{"
    ++ quoted "fieldName" ++ ": " ++ quoted "EmployeeNumber" ++ ", "
    ++ quoted "direction" ++ ": " ++ quoted "Ascending" ++ "}], "
    ++ quoted "pageSize" ++ ": 100, "
    ++ quoted "whereParameters" ++ ": [], "
    ++ quoted "pageNumber" ++ ": ".

(** The adapter and the worlds of the runs against [scripted_network]:
    the start, the world after the division was resolved, and the world
    after one more grid request. *)
Definition scripted_adapter : ViventiumIntegration (Net := scripted_network) :=
  init "UA".

Definition scripted_start (script : list (result http_response))
  : World (Net := scripted_network) :=
  start (Net := scripted_network) script.

Definition scripted_resolved (script : list (result http_response))
  : World (Net := scripted_network) :=
  snd (_get_division_id (Rt := plain_runtime) scripted_adapter "tok123"
         (CookiesStr "sess=abc") (scripted_start script)).

Definition scripted_paged (page : Z) (w : World (Net := scripted_network))
  : World (Net := scripted_network) :=
  snd (_make_request (Rt := plain_runtime) scripted_adapter "GET" grid_url
         (request_headers scripted_adapter "tok123" "sess=abc")
         (grid_params (Rt := plain_runtime) page) w).

(** A scripted answer with status 200 and a JSON body. *)
Definition answer (body : json) : result http_response :=
  Ok (json_response 200 "OK" body).

(* ================================================================== *)
(** * Basic facts *)
(* ================================================================== *)

Lemma Z_in_true (x : Z) (l : list Z) : Z_in x l = true <-> In x l.
Proof.
  unfold Z_in. rewrite existsb_exists. split.
  - intros [y [Hy Heq]]. apply Z.eqb_eq in Heq. now subst.
  - intros Hin. exists x. split; [assumption | apply Z.eqb_refl].
Qed.

Lemma Z_in_false (x : Z) (l : list Z) : Z_in x l = false <-> ~ In x l.
Proof.
  rewrite <- Z_in_true. destruct (Z_in x l); split; congruence.
Qed.

(** The three facts about an error branch of the normalizer, once the
    status tests are decided: it returns nothing, every exception it
    raises is of the expected kind, and on a JSON object it raises the
    error with the message written out. *)
Ltac error_branch resp :=
  split; [| split];
  [ intros body; destruct (json_of resp) as [r_json | | |];
    try discriminate;
    destruct (py_get r_json "message"); try discriminate;
    destruct (py_get r_json "error_type"); discriminate
  | intros e; destruct (json_of resp) as [r_json | | |];
    try (intros Heq; inversion Heq; reflexivity);
    destruct r_json as [| | | | | | fields]; cbn;
    try (intros Heq; inversion Heq; reflexivity);
    destruct (dict_get "message" fields), (dict_get "error_type" fields);
    intros Heq; inversion Heq; reflexivity
  | intros fields Hb; rewrite Hb; cbn; unfold field;
    destruct (dict_get "message" fields), (dict_get "error_type" fields);
    reflexivity ].

Section NormalizerFacts.
Context `{Rt : PyRuntime} `{Net : Network}.

(** On a success status the normalizer only looks at what [json()] and,
    in the handler of line 37, [text()] do. *)
Lemma handle_success (self : ViventiumIntegration) (resp : http_response) :
  In (status resp) [200; 201; 204]%Z ->
  _handle_response self resp =
  match json_of resp with
  | Parsed body => Ok body
  | Malformed | WrongContentType =>
      match text_of resp with
      | Text message =>
          Err (IntegrationAPIError "viventium" message (status resp))
      | TextRaises class_name => Err (OtherError class_name)
      end
  | Raises class_name => Err (OtherError class_name)
  end.
Proof.
  intros Hin. unfold _handle_response, response_json, response_text.
  apply Z_in_true in Hin. rewrite Hin.
  destruct (json_of resp); try reflexivity; now destruct (text_of resp).
Qed.

Lemma status_400_401_not_success (code : Z) :
  In code [400; 401]%Z -> Z_in code [200; 201; 204]%Z = false.
Proof.
  intros Hin. apply Z_in_false. simpl in *. lia.
Qed.

Lemma py_get_error (x : json) (key : string) (e : exn) :
  py_get x key = Err e -> e = AttributeError.
Proof.
  destruct x; cbn; try (intros Heq; inversion Heq; reflexivity).
  destruct (dict_get key fields); discriminate.
Qed.

Lemma response_json_error (resp : http_response) (e : exn) :
  response_json resp = Err e ->
  e = JSONDecodeError \/ e = ContentTypeError
  \/ exists class_name, e = OtherError class_name.
Proof.
  unfold response_json. destruct (json_of resp) as [body | | | class_name];
    intros Heq; inversion Heq; eauto.
Qed.

(** The dispatcher is one round trip through the transport of the
    adapter, then the normalizer. *)
Lemma make_request_round_trip (self : ViventiumIntegration)
    (method url : string) (hs ps : list (string * string)) (w : World) :
  let req := {| req_method := method; req_url := url;
                req_headers := hs; req_params := ps |} in
  _make_request self method url hs ps w =
  match transport_of self (remote w) req with
  | (Ok resp, s) => (_handle_response self resp, after_request w req s)
  | (Err e, s) => (Err e, after_request w req s)
  end.
Proof.
  unfold _make_request, transport_of, bind, round_trip, lift, after_request.
  destruct (network_requester self) as [requester |]; cbn;
    match goal with
    | |- context [?t (remote w) ?r] => destruct (t (remote w) r) as [[resp | e] s]
    end; reflexivity.
Qed.
End NormalizerFacts.

(* ================================================================== *)
(** * The response normalizer *)
(* ================================================================== *)

Section Normalizer.
Context `{Rt : PyRuntime} `{Net : Network}.

(** C6 (amended). On a response whose status is 200, 201 or 204 the
    normalizer returns the parsed body unchanged when the body parses.  It
    raises an [IntegrationAPIError] exactly when [json()] raises one of the
    two classes of line 37, [JSONDecodeError] or [ContentTypeError], and
    the raw text can be read, and that error is built with the integration
    name [viventium], the status code of the response and its raw text.
    Any other exception of [json()], and any exception of [text()] in the
    handler, leaves the normalizer as it is.  The dispatcher returns just
    what the normalizer returns on the response of its round trip. *)
Theorem success_status_returns_body_or_api_error
    (self : ViventiumIntegration) (resp : http_response) :
  In (status resp) [200; 201; 204]%Z ->
  (forall body, json_of resp = Parsed body ->
                _handle_response self resp = Ok body)
  /\ ((exists name msg code,
          _handle_response self resp = Err (IntegrationAPIError name msg code))
      <-> ((json_of resp = Malformed \/ json_of resp = WrongContentType)
           /\ exists raw, text_of resp = Text raw))
  /\ (forall name msg code,
         _handle_response self resp = Err (IntegrationAPIError name msg code) ->
         name = "viventium" /\ code = status resp /\ text_of resp = Text msg)
  /\ (forall class_name,
         json_of resp = Raises class_name ->
         _handle_response self resp = Err (OtherError class_name))
  /\ (forall class_name,
         json_of resp = Malformed \/ json_of resp = WrongContentType ->
         text_of resp = TextRaises class_name ->
         _handle_response self resp = Err (OtherError class_name))
  /\ (forall method url hs ps w s,
         transport_of self (remote w)
           {| req_method := method; req_url := url;
              req_headers := hs; req_params := ps |} = (Ok resp, s) ->
         forall body, json_of resp = Parsed body ->
         fst (_make_request self method url hs ps w) = Ok body).
Proof.
  intros Hin. pose proof (handle_success self resp Hin) as Heq.
  split; [| split; [| split; [| split; [| split]]]].
  - intros body Hb. rewrite Heq, Hb. reflexivity.
  - rewrite Heq. split.
    + intros (name & msg & code & Herr).
      destruct (json_of resp) as [body | | | class_name];
        try discriminate;
        (destruct (text_of resp) as [raw | class_name]; [| discriminate]);
        (split; [auto | now exists raw]).
    + intros [[Hj | Hj] [raw Ht]]; rewrite Hj, Ht;
        now exists "viventium", raw, (status resp).
  - intros name msg code Herr. rewrite Heq in Herr.
    destruct (json_of resp) as [body | | | class_name]; try discriminate;
      (destruct (text_of resp) as [raw | class_name]; [| discriminate]);
      inversion Herr; subst; repeat split.
  - intros class_name Hj. now rewrite Heq, Hj.
  - intros class_name [Hj | Hj] Ht; now rewrite Heq, Hj, Ht.
  - intros method url0 hs ps w s Ht body Hb.
    rewrite make_request_round_trip. cbv zeta. rewrite Ht. cbn.
    rewrite Heq, Hb. reflexivity.
Qed.

(** X16. On a response whose status is 400 or 401 the normalizer never
    returns and never raises an [IntegrationAPIError]; when the body
    parses as a JSON object it raises an [IntegrationAuthError] whose
    message is made of the status code, the reason phrase and the
    [message] and [error_type] entries of the body ([None] for an absent
    one). *)
Theorem auth_status_raises_auth_error
    (self : ViventiumIntegration) (resp : http_response) :
  In (status resp) [400; 401]%Z ->
  (forall body, _handle_response self resp <> Ok body)
  /\ (forall e, _handle_response self resp = Err e -> is_api_error e = false)
  /\ (forall fields,
         json_of resp = Parsed (JObj fields) ->
         _handle_response self resp =
         Err (IntegrationAuthError
                ("ERSP: " ++ str_int (status resp) ++ " - "
                   ++ str_opt (reason resp) ++ " " ++ newline
                   ++ "message: " ++ py_str (field "message" fields)
                   ++ " " ++ newline
                   ++ "error_type: " ++ py_str (field "error_type" fields)))).
Proof.
  intros Hin. pose proof (status_400_401_not_success _ Hin) as Hns.
  apply Z_in_true in Hin.
  unfold _handle_response, response_json. rewrite Hns, Hin.
  error_branch resp.
Qed.

(** X17. On a response whose status is none of 200, 201, 204, 400 and
    401 the normalizer never returns and never raises an
    [IntegrationAuthError]; when the body parses as a JSON object it raises
    an [IntegrationAPIError] built with the integration name of the
    adapter, the status code, and a message made of the status code, the
    response headers and the [message] and [error_type] entries of the
    body. *)
Theorem other_status_raises_api_error
    (self : ViventiumIntegration) (resp : http_response) :
  ~ In (status resp) [200; 201; 204; 400; 401]%Z ->
  (forall body, _handle_response self resp <> Ok body)
  /\ (forall e, _handle_response self resp = Err e -> is_auth_error e = false)
  /\ (forall fields,
         json_of resp = Parsed (JObj fields) ->
         _handle_response self resp =
         Err (IntegrationAPIError
                (integration_name self)
                ("ersp: " ++ str_int (status resp) ++ " - "
                   ++ str_headers (headers resp) ++ " " ++ newline
                   ++ "message: " ++ py_str (field "message" fields)
                   ++ " " ++ newline
                   ++ "error_type: " ++ py_str (field "error_type" fields))
                (status resp))).
Proof.
  intros Hout.
  assert (Hns : Z_in (status resp) [200; 201; 204]%Z = false)
    by (apply Z_in_false; simpl in *; tauto).
  assert (Hna : Z_in (status resp) [400; 401]%Z = false)
    by (apply Z_in_false; simpl in *; tauto).
  unfold _handle_response, response_json. rewrite Hns, Hna.
  error_branch resp.
Qed.

(** C3 (amended). Every [IntegrationAPIError] the normalizer of an adapter
    built by [__init__] raises is built with the integration name
    [viventium]; an [IntegrationAuthError] is raised for the statuses 400
    and 401 only and is built from its message alone, with no integration
    name. *)
Theorem api_errors_carry_integration_name
    (ua : string)
    (requester : option (backend -> request -> result http_response * backend))
    (resp : http_response) (e : exn) :
  _handle_response (initialize (init ua) requester) resp = Err e ->
  (is_api_error e = true -> error_integration_name e = Some "viventium")
  /\ (is_auth_error e = true ->
      In (status resp) [400; 401]%Z /\ error_integration_name e = None).
Proof.
  unfold _handle_response.
  destruct (Z_in (status resp) [200; 201; 204]%Z) eqn:Hs.
  - unfold response_json, response_text.
    destruct (json_of resp); try destruct (text_of resp);
      intros Heq; inversion Heq; subst; cbn; split; congruence.
  - destruct (Z_in (status resp) [400; 401]%Z) eqn:Ha;
      [apply Z_in_true in Ha |];
      (destruct (response_json resp) as [r_json | e0] eqn:Hj;
       [ destruct (py_get r_json "message") as [m | e1] eqn:Hm;
         [ destruct (py_get r_json "error_type") as [t | e2] eqn:Ht | ] | ]);
      intros Heq; inversion Heq; subst; clear Heq;
      try (apply py_get_error in Ht; subst);
      try (apply py_get_error in Hm; subst);
      try (apply response_json_error in Hj;
           destruct Hj as [-> | [-> | [class_name ->]]]);
      cbn; split; intros Hx; try discriminate; try reflexivity;
      split; [assumption | reflexivity].
Qed.

End Normalizer.


(* ================================================================== *)
(** * The cookie builder *)
(* ================================================================== *)

Lemma str_append_assoc (a b c : string) : (a ++ b) ++ c = a ++ (b ++ c).
Proof.
  induction a as [| x a IH]; cbn; [reflexivity | now rewrite IH].
Qed.

Lemma has_char_append (c : ascii) (a b : string) :
  has_char c (a ++ b) = (has_char c a || has_char c b)%bool.
Proof.
  induction a as [| x a IH]; cbn; [reflexivity |].
  rewrite IH. now rewrite orb_assoc.
Qed.

(** A piece with no semicolon is not cut. *)
Lemma split_pairs_piece (p : string) :
  has_char ";" p = false -> split_pairs p = [p].
Proof.
  induction p as [| c p IH]; cbn [has_char split_pairs]; [reflexivity |].
  intros Hc. apply orb_false_elim in Hc. destruct Hc as [Hc Hp].
  rewrite Ascii.eqb_sym in Hc.
  rewrite (IH Hp). rewrite Hc. cbn. now destruct p.
Qed.

(** A piece with no semicolon, followed by the separator, is cut off. *)
Lemma split_pairs_append (p s : string) :
  has_char ";" p = false ->
  split_pairs (p ++ "; " ++ s) = p :: split_pairs s.
Proof.
  induction p as [| c p IH]; intros Hc.
  - reflexivity.
  - cbn [has_char] in Hc. apply orb_false_elim in Hc. destruct Hc as [Hc Hp].
    change (String c p ++ "; " ++ s) with (String c (p ++ "; " ++ s)).
    rewrite Ascii.eqb_sym in Hc.
    cbn [split_pairs]. rewrite (IH Hp). rewrite Hc. cbn.
    match goal with
    | |- match ?x with _ => _ end = _ => now destruct x
    end.
Qed.

Lemma split_pair_append (k v : string) :
  has_char "=" k = false -> split_pair (k ++ "=" ++ v) = (k, v).
Proof.
  induction k as [| c k IH]; intros Hc.
  - reflexivity.
  - cbn [has_char] in Hc. apply orb_false_elim in Hc. destruct Hc as [Hc Hk].
    change (String c k ++ "=" ++ v) with (String c (k ++ "=" ++ v)).
    rewrite Ascii.eqb_sym in Hc.
    cbn [split_pair]. rewrite Hc. now rewrite (IH Hk).
Qed.

Lemma make_cookie_string_join (cookies : list (string * string)) :
  make_cookie_string cookies = str_join "; " (map pair_text cookies).
Proof.
  unfold make_cookie_string. f_equal. apply map_ext. now intros [k v].
Qed.

Lemma pair_text_no_semicolon (kv : string * string) :
  plain_pair kv -> has_char ";" (pair_text kv) = false.
Proof.
  intros (Hk & _ & Hv). unfold pair_text.
  rewrite !has_char_append, Hk, Hv. reflexivity.
Qed.

Lemma split_pairs_join (pieces : list string) :
  pieces <> [] ->
  Forall (fun p => has_char ";" p = false) pieces ->
  split_pairs (str_join "; " pieces) = pieces.
Proof.
  induction pieces as [| p rest IH]; [congruence |].
  intros _ Hall. inversion Hall as [| ? ? Hp Hrest]; subst.
  destruct rest as [| q rest].
  - cbn. now apply split_pairs_piece.
  - change (str_join "; " (p :: q :: rest))
      with (p ++ "; " ++ str_join "; " (q :: rest)).
    rewrite (split_pairs_append _ _ Hp). f_equal.
    apply IH; [discriminate | assumption].
Qed.

Lemma str_join_pairs_not_empty (kv : string * string)
    (rest : list (string * string)) :
  str_join "; " (map pair_text (kv :: rest)) <> EmptyString.
Proof.
  destruct kv as [k v]. cbn [map]. generalize (map pair_text rest).
  intros pieces. unfold pair_text. cbn [fst snd str_join].
  destruct pieces; destruct k; cbn; intros Heq; discriminate.
Qed.

Lemma parse_make_cookie_string (cookies : list (string * string)) :
  Forall plain_pair cookies ->
  parse_cookie_string (make_cookie_string cookies) = cookies.
Proof.
  intros Hall. rewrite make_cookie_string_join.
  destruct cookies as [| kv rest]; [reflexivity |].
  unfold parse_cookie_string.
  destruct (str_join "; " (map pair_text (kv :: rest))) eqn:Hj.
  - now elim (str_join_pairs_not_empty kv rest).
  - rewrite <- Hj. rewrite split_pairs_join.
    + rewrite map_map. rewrite <- (map_id (kv :: rest)) at 2.
      apply map_ext_in. intros [k v] Hin.
      rewrite Forall_forall in Hall. destruct (Hall _ Hin) as (_ & Hk & _).
      unfold pair_text. cbn [fst snd]. now apply split_pair_append.
    + discriminate.
    + rewrite Forall_forall. intros piece Hin.
      apply in_map_iff in Hin. destruct Hin as (kv' & <- & Hin').
      apply pair_text_no_semicolon.
      rewrite Forall_forall in Hall. now apply Hall.
Qed.

(* ================================================================== *)
(** * Requests, traces and the store *)
(* ================================================================== *)

Lemma page_numbers_S (page : Z) (count : nat) :
  page_numbers page (S count) = page :: page_numbers (page + 1) count.
Proof.
  unfold page_numbers. cbn [seq map]. rewrite Z.add_0_r. f_equal.
  rewrite <- seq_shift, map_map. apply map_ext. intros i. lia.
Qed.

Section Traces.
Context `{Rt : PyRuntime} `{Net : Network}.

Lemma cookie_header_run (cookies : cookies_arg) (w : World) :
  cookie_header cookies w = (Ok (cookie_text cookies w), w).
Proof. now destruct cookies. Qed.

(** Whatever comes back, the dispatcher has sent one request and has
    left the store alone. *)
Lemma make_request_world (self : ViventiumIntegration)
    (method url : string) (hs ps : list (string * string)) (w : World) :
  exists s,
    snd (_make_request self method url hs ps w)
    = after_request w {| req_method := method; req_url := url;
                         req_headers := hs; req_params := ps |} s.
Proof.
  rewrite make_request_round_trip. cbv zeta.
  destruct (transport_of self (remote w) _) as [[resp | e] s];
    exists s; reflexivity.
Qed.

Lemma get_division_id_unfold (self : ViventiumIntegration)
    (token : string) (cookies : cookies_arg) (w : World) :
  _get_division_id self token cookies w =
  match _make_request self "GET" (url self ++ "/paystream/v1/divisions")
          (request_headers self token (cookie_text cookies w))
          [("pageNumber", "1"); ("pageSize", "1000")] w with
  | (Ok response, w') =>
      match py_first response with
      | Ok this_division => (py_get this_division "id", w')
      | Err e => (Err e, w')
      end
  | (Err e, w') => (Err e, w')
  end.
Proof.
  unfold _get_division_id, bind. rewrite cookie_header_run.
  unfold request_headers, lift. cbn [append].
  destruct (_make_request _ _ _ _ _ w) as [[response | e] w'];
    [| reflexivity].
  now destruct (py_first response).
Qed.

Lemma get_division_id_world (self : ViventiumIntegration)
    (token : string) (cookies : cookies_arg) (w : World) :
  exists s,
    snd (_get_division_id self token cookies w)
    = after_request w
        (division_request self token (cookie_text cookies w)) s.
Proof.
  rewrite get_division_id_unfold.
  destruct (make_request_world self "GET"
              (url self ++ "/paystream/v1/divisions")
              (request_headers self token (cookie_text cookies w))
              [("pageNumber", "1"); ("pageSize", "1000")] w) as [s Hs].
  exists s. unfold division_request. rewrite <- Hs.
  destruct (_make_request _ _ _ _ _ w) as [[response | e] w'];
    [| reflexivity].
  now destruct (py_first response).
Qed.

Lemma fetch_unfold (fuel : nat) (self : ViventiumIntegration)
    (token : string) (cookies : cookies_arg) (w : World) :
  fetch_employee_profiles fuel self token cookies w =
  match _get_division_id self token cookies w with
  | (Err e, w1) => Some (Err e, w1)
  | (Ok division_id, w1) =>
      match paginate fuel self (grid_path self division_id)
              (request_headers self token (cookie_text cookies w1))
              1 [] w1 with
      | None => None
      | Some (Err e, w3) => Some (Err e, w3)
      | Some (Ok employee_list, w3) =>
          Some (pop_division_keys employee_list, w3)
      end
  end.
Proof.
  unfold fetch_employee_profiles.
  destruct (_get_division_id self token cookies w) as [[d | e] w1];
    [| reflexivity].
  rewrite cookie_header_run. reflexivity.
Qed.

(** A run of the loop sends the requests for consecutive pages, from the
    page it was entered with, and leaves the store alone. *)
Lemma paginate_trace (self : ViventiumIntegration) (path : string)
    (hs : list (string * string)) (fuel : nat) :
  forall page acc w r w',
    paginate fuel self path hs page acc w = Some (r, w') ->
    dicts w' = dicts w
    /\ exists count,
         (0 < count)%nat
         /\ sent w' = (sent w ++ map (grid_request path hs)
                                    (page_numbers page count))%list.
Proof.
  induction fuel as [| fuel IH]; intros page acc w r w' Hrun;
    [discriminate |].
  cbn [paginate] in Hrun.
  destruct (make_request_world self "GET" path hs (grid_params page) w)
    as [s Hs].
  destruct (_make_request self "GET" path hs (grid_params page) w)
    as [[employees | e] w1]; cbn [snd] in Hs; subst w1.
  - destruct (py_len employees) as [n | e].
    + destruct (Nat.ltb 0 n).
      * destruct (Nat.ltb n 100).
        -- inversion Hrun; subst. split; [reflexivity |].
           exists 1%nat. split; [lia |]. cbn. now rewrite Z.add_0_r.
        -- apply IH in Hrun. destruct Hrun as (Hd & count & Hpos & Hsent).
           split; [exact Hd |]. exists (S count). split; [lia |].
           rewrite Hsent, page_numbers_S. cbn [after_request sent map].
           now rewrite <- app_assoc.
      * inversion Hrun; subst. split; [reflexivity |].
        exists 1%nat. split; [lia |]. cbn. now rewrite Z.add_0_r.
    + inversion Hrun; subst. split; [reflexivity |].
      exists 1%nat. split; [lia |]. cbn. now rewrite Z.add_0_r.
  - inversion Hrun; subst. split; [reflexivity |].
    exists 1%nat. split; [lia |]. cbn. now rewrite Z.add_0_r.
Qed.
End Traces.

Section RunFacts.
Context `{Rt : PyRuntime} `{Net : Network}.

Lemma cookie_text_after_request (cookies : cookies_arg) (w : World)
    (req : request) (s : backend) :
  cookie_text cookies (after_request w req s) = cookie_text cookies w.
Proof. now destruct cookies. Qed.

Lemma cookie_header_sent (self : ViventiumIntegration)
    (token cookie : string) :
  dict_get "Cookie" (request_headers self token cookie) = Some cookie.
Proof. reflexivity. Qed.

(** The requests of a whole fetch: the division request, then grid
    requests, all with the same headers; the store is left alone. *)
Lemma fetch_requests (fuel : nat) (self : ViventiumIntegration)
    (token : string) (cookies : cookies_arg) (w : World)
    (r : result (list json)) (w' : World) :
  fetch_employee_profiles fuel self token cookies w = Some (r, w') ->
  dicts w' = dicts w
  /\ exists reqs,
       sent w' = (sent w ++ division_request self token
                              (cookie_text cookies w) :: reqs)%list
       /\ Forall (fun req =>
                    req_method req = "GET"
                    /\ req_headers req
                       = request_headers self token (cookie_text cookies w))
                 reqs.
Proof.
  rewrite fetch_unfold.
  destruct (get_division_id_world self token cookies w) as [s Hs].
  destruct (_get_division_id self token cookies w) as [[d | e] w1];
    cbn [snd] in Hs; subst w1.
  - rewrite cookie_text_after_request.
    destruct (paginate _ _ _ _ _ _ _) as [[r0 w3] |] eqn:Hp;
      [| discriminate].
    apply paginate_trace in Hp. destruct Hp as (Hd & count & _ & Hsent).
    intros Heq.
    assert (w3 = w') by (destruct r0; inversion Heq; reflexivity). subst w3.
    split; [exact Hd |].
    eexists. split.
    + rewrite Hsent. cbn [after_request sent]. rewrite <- app_assoc.
      reflexivity.
    + rewrite Forall_forall. intros req Hin.
      apply in_map_iff in Hin. destruct Hin as (page & <- & _).
      split; reflexivity.
  - intros Heq. inversion Heq; subst. split; [reflexivity |].
    exists []. split; [reflexivity | constructor].
Qed.

(** The loop on a backend that serves [full] and then [last]. *)
Lemma paginate_served (self : ViventiumIntegration) (path : string)
    (hs : list (string * string)) (last : list json) :
  (List.length last < 100)%nat ->
  forall full page acc w w' fuel,
    Forall (fun records => (100 <= List.length records)%nat) full ->
    grid_pages_served self path hs page full last w w' ->
    (List.length full < fuel)%nat ->
    paginate fuel self path hs page acc w
    = Some (Ok (acc ++ concat full ++ last)%list, w')
    /\ sent w' = (sent w ++ map (grid_request path hs)
                               (page_numbers page (S (List.length full))))%list.
Proof.
  intros Hlast. induction full as [| records more IH];
    intros page acc w w' fuel Hfull Hserved Hfuel;
    (destruct fuel as [| fuel]; [cbn in Hfuel; lia |]).
  - cbn [grid_pages_served] in Hserved.
    destruct (make_request_world self "GET" path hs (grid_params page) w)
      as [s Hs].
    rewrite Hserved in Hs. cbn [snd] in Hs.
    cbn [paginate]. rewrite Hserved. cbn [py_len py_iter concat app].
    split.
    + destruct (Nat.ltb 0 (List.length last)) eqn:H0.
      * apply Nat.ltb_lt in Hlast. now rewrite Hlast.
      * apply Nat.ltb_ge in H0.
        assert (last = []) by (destruct last; cbn in H0; [reflexivity | lia]).
        subst last. now rewrite app_nil_r.
    + rewrite Hs. cbn. now rewrite Z.add_0_r.
  - cbn [grid_pages_served] in Hserved.
    destruct Hserved as (w1 & Hreq & Hmore).
    inversion Hfull as [| ? ? Hrec Hrest]; subst.
    destruct (make_request_world self "GET" path hs (grid_params page) w)
      as [s Hs].
    rewrite Hreq in Hs. cbn [snd] in Hs.
    cbn [paginate]. rewrite Hreq. cbn [py_len py_iter].
    assert (H0 : Nat.ltb 0 (List.length records) = true)
      by (apply Nat.ltb_lt; lia).
    assert (H1 : Nat.ltb (List.length records) 100 = false)
      by (apply Nat.ltb_ge; lia).
    rewrite H0, H1.
    destruct (IH (page + 1)%Z (acc ++ records)%list w1 w' fuel Hrest Hmore)
      as [Hrun Hsent]; [cbn in Hfuel; lia |].
    split.
    + rewrite Hrun. cbn [concat]. now rewrite <- !app_assoc.
    + rewrite Hsent, Hs. rewrite (page_numbers_S page).
      cbn [after_request sent map]. now rewrite <- app_assoc.
Qed.
End RunFacts.

(** What deleting a key leaves in a dict. *)
Lemma dict_get_remove_same {V : Type} (key : string)
    (d : list (string * V)) :
  dict_get key (dict_remove key d) = None.
Proof.
  induction d as [| [k v] d IH]; cbn; [reflexivity |].
  destruct (String.eqb k key) eqn:Hk; [exact IH |].
  cbn. now rewrite Hk.
Qed.

Lemma dict_get_remove_other {V : Type} (key k : string)
    (d : list (string * V)) :
  k <> key -> dict_get k (dict_remove key d) = dict_get k d.
Proof.
  intros Hne. induction d as [| [k0 v] d IH]; cbn; [reflexivity |].
  destruct (String.eqb k0 key) eqn:Hk.
  - apply String.eqb_eq in Hk. subst k0.
    destruct (String.eqb key k) eqn:Hkk; [| exact IH].
    apply String.eqb_eq in Hkk. congruence.
  - cbn. now rewrite IH.
Qed.

Lemma dict_remove_filter {V : Type} (key : string) (d : list (string * V)) :
  dict_remove key d = filter (fun kv => negb (String.eqb (fst kv) key)) d.
Proof.
  induction d as [| [k v] d IH]; cbn; [reflexivity |].
  destruct (String.eqb k key); cbn; now rewrite IH.
Qed.

Lemma pop_division_keys_ok (employee_list : list json) :
  Forall (fun record => has_division_key record = true) employee_list ->
  pop_division_keys employee_list
  = Ok (map without_division_key employee_list).
Proof.
  induction employee_list as [| record rest IH]; intros Hall;
    [reflexivity |].
  inversion Hall as [| ? ? Hrec Hrest]; subst.
  cbn [pop_division_keys map]. rewrite (IH Hrest).
  destruct record; cbn in Hrec; try discriminate.
  cbn. now rewrite Hrec.
Qed.

Lemma pop_division_keys_inv (employee_list rs : list json) :
  pop_division_keys employee_list = Ok rs ->
  Forall (fun record => has_division_key record = true) employee_list
  /\ rs = map without_division_key employee_list.
Proof.
  revert rs. induction employee_list as [| record rest IH]; intros rs Hpop.
  - inversion Hpop. split; [constructor | reflexivity].
  - cbn [pop_division_keys] in Hpop.
    destruct (py_pop record "DivisionKey") as [record' |] eqn:Hrec;
      [| discriminate].
    destruct (pop_division_keys rest) as [rest' |]; [| discriminate].
    inversion Hpop; subst. destruct (IH rest' eq_refl) as [Hall ->].
    destruct record; cbn in Hrec; try discriminate.
    destruct (dict_mem "DivisionKey" fields) eqn:Hmem; [| discriminate].
    inversion Hrec; subst. split; [| reflexivity].
    constructor; [exact Hmem | exact Hall].
Qed.

(* ================================================================== *)
(** * The division resolver, the cookie header and the paginator *)
(* ================================================================== *)

Section Requests.
Context `{Rt : PyRuntime} `{Net : Network}.

(** C7. The division resolver sends exactly one request: a GET to the
    divisions endpoint under the base URL, with [pageNumber] 1 and
    [pageSize] 1000.  When the dispatcher returns a sequence whose first
    entry is an object, the resolver returns the [id] entry of that
    object; on the listing of D1 and D2 it returns D1. *)
Theorem division_resolver_returns_first_id
    (ua : string)
    (requester : option (backend -> request -> result http_response * backend))
    (token : string) (cookies : cookies_arg) (w : World) :
  let self := initialize (init ua) requester in
  let req :=
    {| req_method := "GET";
       req_url := "https://hcm.viventium.com/api/paystream/v1/divisions";
       req_headers := request_headers self token (cookie_text cookies w);
       req_params := [("pageNumber", "1"); ("pageSize", "1000")] |} in
  sent (snd (_get_division_id self token cookies w)) = (sent w ++ [req])%list
  /\ (forall fields rest w',
         _make_request self (req_method req) (req_url req) (req_headers req)
           (req_params req) w = (Ok (JArr (JObj fields :: rest)), w') ->
         _get_division_id self token cookies w = (Ok (field "id" fields), w'))
  /\ (forall resp s,
         transport_of self (remote w) req = (Ok resp, s) ->
         In (status resp) [200; 201; 204]%Z ->
         json_of resp = Parsed (JArr [ JObj [("id", JStr "D1")];
                                       JObj [("id", JStr "D2")] ]) ->
         fst (_get_division_id self token cookies w) = Ok (JStr "D1")).
Proof.
  intros self req. repeat split.
  - destruct (get_division_id_world self token cookies w) as [s Hs].
    rewrite Hs. reflexivity.
  - intros fields rest w' Hreq. rewrite get_division_id_unfold.
    change (url self ++ "/paystream/v1/divisions") with (req_url req).
    cbn [req_method req_url req_headers req_params req] in Hreq.
    cbn [req_url req]. rewrite Hreq. cbn [py_first py_get]. unfold field.
    now destruct (dict_get "id" fields).
  - intros resp s Ht Hin Hbody. rewrite get_division_id_unfold.
    rewrite make_request_round_trip. cbv zeta.
    change {| req_method := "GET";
              req_url := url self ++ "/paystream/v1/divisions";
              req_headers := request_headers self token (cookie_text cookies w);
              req_params := [("pageNumber", "1"); ("pageSize", "1000")] |}
      with req.
    rewrite Ht. rewrite (handle_success self resp Hin), Hbody. reflexivity.
Qed.

(** C8. The cookie string of a mapping is its [key=value] pairs joined by
    a semicolon and a space, one pair for each entry, in the order of the
    entries: reading the string back gives the entries again.  The resolver
    sends the cookie string of a mapping as its [Cookie] header; a
    [cookies] argument that is already a string is the [Cookie] header,
    unchanged, of the request of the resolver and of every request of a
    fetch. *)
Theorem cookie_string_has_every_pair_in_order :
  (forall cookies,
      make_cookie_string cookies = str_join "; " (map pair_text cookies)
      /\ List.length (map pair_text cookies) = List.length cookies)
  /\ (forall cookies,
         Forall plain_pair cookies ->
         parse_cookie_string (make_cookie_string cookies) = cookies)
  /\ (forall self token l w,
         exists req,
           sent (snd (_get_division_id self token (CookiesDict l) w))
           = (sent w ++ [req])%list
           /\ dict_get "Cookie" (req_headers req)
              = Some (make_cookie_string (dicts w l)))
  /\ (forall self token s w,
         exists req,
           sent (snd (_get_division_id self token (CookiesStr s) w))
           = (sent w ++ [req])%list
           /\ dict_get "Cookie" (req_headers req) = Some s)
  /\ (forall fuel self token s w r w',
         fetch_employee_profiles fuel self token (CookiesStr s) w
         = Some (r, w') ->
         exists reqs,
           sent w' = (sent w ++ reqs)%list
           /\ Forall (fun req => dict_get "Cookie" (req_headers req) = Some s)
                     reqs).
Proof.
  repeat split.
  - apply make_cookie_string_join.
  - apply length_map.
  - apply parse_make_cookie_string.
  - intros self token l w.
    destruct (get_division_id_world self token (CookiesDict l) w) as [st Hs].
    eexists. rewrite Hs. split; reflexivity.
  - intros self token s w.
    destruct (get_division_id_world self token (CookiesStr s) w) as [st Hs].
    eexists. rewrite Hs. split; reflexivity.
  - intros fuel self token s w r w' Hrun.
    apply fetch_requests in Hrun. destruct Hrun as (_ & reqs & Hsent & Hall).
    eexists. split; [exact Hsent |].
    constructor; [reflexivity |].
    rewrite Forall_forall in *. intros req Hin.
    destruct (Hall req Hin) as [_ ->]. reflexivity.
Qed.

(** C10. With the [cookies] argument a reference to a dict of the caller,
    the store of dict objects is the same after the division resolver and
    after a fetch as before, whatever they return or raise: the dict of
    the caller has the entries it had. *)
Theorem caller_cookie_dict_not_mutated
    (self : ViventiumIntegration) (token : string) (l : loc) (w : World) :
  (dicts (snd (_get_division_id self token (CookiesDict l) w)) = dicts w
   /\ dicts (snd (_get_division_id self token (CookiesDict l) w)) l
      = dicts w l)
  /\ (forall fuel r w',
         fetch_employee_profiles fuel self token (CookiesDict l) w
         = Some (r, w') ->
         dicts w' = dicts w /\ dicts w' l = dicts w l).
Proof.
  split.
  - destruct (get_division_id_world self token (CookiesDict l) w) as [s Hs].
    rewrite Hs. split; reflexivity.
  - intros fuel r w' Hrun. apply fetch_requests in Hrun.
    destruct Hrun as [Hd _]. rewrite Hd. split; reflexivity.
Qed.

(** C9. When the division is resolved and the first grid page comes back
    as an empty sequence, the fetch returns the empty list, with no error,
    after that one grid request. *)
Theorem empty_first_page_returns_empty_list
    (fuel : nat) (self : ViventiumIntegration) (token : string)
    (cookies : cookies_arg) (w w1 w2 : World) (division_id : json) :
  _get_division_id self token cookies w = (Ok division_id, w1) ->
  _make_request self "GET" (grid_path self division_id)
    (request_headers self token (cookie_text cookies w1)) (grid_params 1) w1
  = (Ok (JArr []), w2) ->
  fetch_employee_profiles (S fuel) self token cookies w = Some (Ok [], w2)
  /\ pop_division_keys [] = Ok [].
Proof.
  intros Hdiv Hpage. split; [| reflexivity].
  rewrite fetch_unfold, Hdiv. cbn [paginate]. rewrite Hpage. reflexivity.
Qed.

(** C2 (amended). A fetch returns a list exactly when every accumulated
    record is an object that has a [DivisionKey] entry; the list returned
    is then the accumulated records, in order, each with that entry
    deleted and with every other entry as it was. *)
Theorem division_key_removed_from_every_record
    (fuel : nat) (self : ViventiumIntegration) (token : string)
    (cookies : cookies_arg) (w w1 w' : World) (division_id : json)
    (employee_list : list json) :
  _get_division_id self token cookies w = (Ok division_id, w1) ->
  paginate fuel self (grid_path self division_id)
    (request_headers self token (cookie_text cookies w1)) 1 [] w1
  = Some (Ok employee_list, w') ->
  (Forall (fun record => has_division_key record = true) employee_list ->
   fetch_employee_profiles fuel self token cookies w
   = Some (Ok (map without_division_key employee_list), w'))
  /\ (forall rs,
         fetch_employee_profiles fuel self token cookies w = Some (Ok rs, w') ->
         rs = map without_division_key employee_list
         /\ Forall (fun record => has_division_key record = true)
                   employee_list)
  /\ (forall fields,
         In (JObj fields) employee_list ->
         without_division_key (JObj fields)
         = JObj (filter (fun kv => negb (String.eqb (fst kv) "DivisionKey"))
                        fields)
         /\ dict_get "DivisionKey" (dict_remove "DivisionKey" fields) = None
         /\ (forall k, k <> "DivisionKey" ->
                       dict_get k (dict_remove "DivisionKey" fields)
                       = dict_get k fields)).
Proof.
  intros Hdiv Hpag. split; [| split].
  - intros Hall. rewrite fetch_unfold, Hdiv, Hpag.
    now rewrite (pop_division_keys_ok _ Hall).
  - intros rs Hrun. rewrite fetch_unfold, Hdiv, Hpag in Hrun.
    inversion Hrun as [Hpop].
    destruct (pop_division_keys_inv _ _ Hpop) as [Hall Hrs].
    split; assumption.
  - intros fields _. split; [| split].
    + cbn. now rewrite dict_remove_filter.
    + apply dict_get_remove_same.
    + intros k Hk. now apply dict_get_remove_other.
Qed.

End Requests.

(* ================================================================== *)
(** * Further properties of the normalizer and the dispatcher *)
(* ================================================================== *)

Section NormalizerMore.
Context `{Rt : PyRuntime} `{Net : Network}.

(** X1. The normalizer returns a value exactly on a success status whose
    body parses, and the value is that body.  Every exception that leaves
    it is an [IntegrationAPIError] with the status code of the response,
    an [IntegrationAuthError] (statuses 400 and 401 only), a
    [JSONDecodeError], [ContentTypeError] or [AttributeError] on a status
    that is no success, or an exception of another class that [json()]
    itself raised or, in the handler of a success status, [text()] did.
    The normalizer raises nothing of its own besides: no [KeyError],
    [TypeError] or [IndexError], and no error of the transport. *)
Theorem normalizer_outcomes
    (self : ViventiumIntegration) (resp : http_response) :
  (forall body,
      _handle_response self resp = Ok body
      <-> In (status resp) [200; 201; 204]%Z /\ json_of resp = Parsed body)
  /\ (forall e,
         _handle_response self resp = Err e ->
         match e with
         | IntegrationAPIError _ _ code => code = status resp
         | IntegrationAuthError _ => In (status resp) [400; 401]%Z
         | JSONDecodeError =>
             ~ In (status resp) [200; 201; 204]%Z
             /\ json_of resp = Malformed
         | ContentTypeError =>
             ~ In (status resp) [200; 201; 204]%Z
             /\ json_of resp = WrongContentType
         | AttributeError => ~ In (status resp) [200; 201; 204]%Z
         | OtherError class_name =>
             json_of resp = Raises class_name
             \/ (In (status resp) [200; 201; 204]%Z
                 /\ text_of resp = TextRaises class_name)
         | _ => False
         end).
Proof.
  split.
  - intros body. split.
    + unfold _handle_response, response_json, response_text.
      destruct (Z_in (status resp) [200; 201; 204]%Z) eqn:Hs.
      * apply Z_in_true in Hs.
        destruct (json_of resp) as [parsed | | | class_name];
          [| destruct (text_of resp) | destruct (text_of resp) |];
          try discriminate.
        intros Heq. inversion Heq; subst. split; [exact Hs | reflexivity].
      * destruct (Z_in (status resp) [400; 401]%Z);
          (destruct (json_of resp) as [r_json | | |]; try discriminate;
           destruct (py_get r_json "message"); [| discriminate];
           destruct (py_get r_json "error_type"); discriminate).
    + intros [Hs Hb]. rewrite (handle_success self resp Hs), Hb. reflexivity.
  - intros e. unfold _handle_response, response_json, response_text.
    destruct (Z_in (status resp) [200; 201; 204]%Z) eqn:Hs.
    + apply Z_in_true in Hs.
      destruct (json_of resp); try destruct (text_of resp);
        intros Heq; inversion Heq; subst; cbn; auto.
    + apply Z_in_false in Hs.
      destruct (Z_in (status resp) [400; 401]%Z) eqn:Ha;
        [apply Z_in_true in Ha |];
        (destruct (json_of resp) as [r_json | | | class_name];
         [ destruct (py_get r_json "message") as [m | e1] eqn:Hm;
           [ destruct (py_get r_json "error_type") as [t | e2] eqn:Ht | ]
         | | | ]);
        intros Heq; inversion Heq; subst; clear Heq;
        try (apply py_get_error in Ht; subst);
        try (apply py_get_error in Hm; subst);
        cbn; auto.
Qed.

(** X2. On a status that is no success the body is parsed outside any
    [try]: malformed text leaves the normalizer as [JSONDecodeError], a
    wrong content type as [ContentTypeError], and a body that parses to
    anything but an object (a list, a string, a number, [null]) as
    [AttributeError], whatever the status is. *)
Theorem error_status_with_unusable_body
    (self : ViventiumIntegration) (resp : http_response) :
  ~ In (status resp) [200; 201; 204]%Z ->
  (json_of resp = Malformed ->
   _handle_response self resp = Err JSONDecodeError)
  /\ (json_of resp = WrongContentType ->
      _handle_response self resp = Err ContentTypeError)
  /\ (forall body,
         json_of resp = Parsed body -> is_object body = false ->
         _handle_response self resp = Err AttributeError).
Proof.
  intros Hs. apply Z_in_false in Hs.
  unfold _handle_response, response_json. rewrite Hs.
  split; [| split].
  - intros ->. now destruct (Z_in (status resp) [400; 401]%Z).
  - intros ->. now destruct (Z_in (status resp) [400; 401]%Z).
  - intros body -> Hobj.
    destruct body; try discriminate;
      now destruct (Z_in (status resp) [400; 401]%Z).
Qed.

(** X3. One call of the dispatcher is one round trip, with no retry: the
    request joins the trace once and the store is left alone, whatever
    comes back.  The round trip goes through the injected requester when
    there is one and through the default session otherwise; an exception
    of the transport leaves the dispatcher as it is, and a response is
    handed to the normalizer, whose outcome is the outcome of the call. *)
Theorem dispatcher_makes_one_round_trip
    (self : ViventiumIntegration) (method url : string)
    (hs ps : list (string * string)) (w : World) :
  let req := {| req_method := method; req_url := url;
                req_headers := hs; req_params := ps |} in
  sent (snd (_make_request self method url hs ps w)) = (sent w ++ [req])%list
  /\ dicts (snd (_make_request self method url hs ps w)) = dicts w
  /\ (forall requester,
         network_requester self = Some requester ->
         remote (snd (_make_request self method url hs ps w))
         = snd (requester (remote w) req))
  /\ (network_requester self = None ->
      remote (snd (_make_request self method url hs ps w))
      = snd (session_request (remote w) req))
  /\ (forall e s,
         transport_of self (remote w) req = (Err e, s) ->
         _make_request self method url hs ps w
         = (Err e, after_request w req s))
  /\ (forall resp s,
         transport_of self (remote w) req = (Ok resp, s) ->
         _make_request self method url hs ps w
         = (_handle_response self resp, after_request w req s)).
Proof.
  intros req.
  pose proof (make_request_round_trip self method url hs ps w) as Hrt.
  cbv zeta in Hrt. fold req in Hrt.
  split; [| split; [| split; [| split; [| split]]]].
  - rewrite Hrt. now destruct (transport_of self (remote w) req) as [[? | ?] ?].
  - rewrite Hrt. now destruct (transport_of self (remote w) req) as [[? | ?] ?].
  - intros requester Hreq. rewrite Hrt. unfold transport_of. rewrite Hreq.
    now destruct (requester (remote w) req) as [[? | ?] ?].
  - intros Hreq. rewrite Hrt. unfold transport_of. rewrite Hreq.
    now destruct (session_request (remote w) req) as [[? | ?] ?].
  - intros e s Ht. now rewrite Hrt, Ht.
  - intros resp s Ht. now rewrite Hrt, Ht.
Qed.

End NormalizerMore.

(* ================================================================== *)
(** * Further properties of the resolver and the paginator *)
(* ================================================================== *)

Lemma str_chars_length (s : string) :
  List.length (str_chars s) = String.length s.
Proof.
  induction s as [| c s IH]; cbn; [reflexivity | now rewrite IH].
Qed.

(** [extend] appends as many items as [len] counts. *)
Lemma py_iter_length (x : json) (n : nat) :
  py_len x = Ok n -> List.length (py_iter x) = n.
Proof.
  destruct x; cbn; intros Heq; inversion Heq; subst;
    rewrite ?length_map, ?str_chars_length; reflexivity.
Qed.

Section PaginatorFacts.
Context `{Rt : PyRuntime} `{Net : Network}.

(** A finished run of the loop has sent the requests for [count]
    consecutive pages and, when it returned, has gathered at least 100
    records for every request but the last. *)
Lemma paginate_progress (self : ViventiumIntegration) (path : string)
    (hs : list (string * string)) (fuel : nat) :
  forall page acc w r w',
    paginate fuel self path hs page acc w = Some (r, w') ->
    exists count,
      (0 < count)%nat
      /\ sent w' = (sent w ++ map (grid_request path hs)
                                 (page_numbers page count))%list
      /\ (forall acc', r = Ok acc' ->
                       (List.length acc + 100 * (count - 1)
                        <= List.length acc')%nat).
Proof.
  induction fuel as [| fuel IH]; intros page acc w r w' Hrun;
    [discriminate |].
  cbn [paginate] in Hrun.
  destruct (make_request_world self "GET" path hs (grid_params page) w)
    as [s Hs].
  assert (Hone : forall w1,
             w1 = after_request w
                    {| req_method := "GET"; req_url := path;
                       req_headers := hs; req_params := grid_params page |} s ->
             sent w1 = (sent w ++ map (grid_request path hs)
                                      (page_numbers page 1))%list).
  { intros w1 ->. cbn. now rewrite Z.add_0_r. }
  destruct (_make_request self "GET" path hs (grid_params page) w)
    as [[employees | e] w1]; cbn [snd] in Hs.
  - destruct (py_len employees) as [n | e] eqn:Hlen.
    + destruct (Nat.ltb 0 n) eqn:H0.
      * destruct (Nat.ltb n 100) eqn:H1.
        -- inversion Hrun; subst r w'. exists 1%nat.
           split; [lia |]. split; [now apply Hone |].
           intros acc' Heq. inversion Heq. rewrite length_app. lia.
        -- apply IH in Hrun. destruct Hrun as (count & Hpos & Hsent & Hlen').
           apply Nat.ltb_ge in H1.
           exists (S count). split; [lia |]. split.
           ++ rewrite Hsent, Hs, page_numbers_S.
              cbn [after_request sent map]. now rewrite <- app_assoc.
           ++ intros acc' Heq. specialize (Hlen' acc' Heq).
              rewrite length_app, (py_iter_length _ _ Hlen) in Hlen'. lia.
      * inversion Hrun; subst r w'. exists 1%nat.
        split; [lia |]. split; [now apply Hone |].
        intros acc' Heq. inversion Heq. lia.
    + inversion Hrun; subst r w'. exists 1%nat.
      split; [lia |]. split; [now apply Hone |]. discriminate.
  - inversion Hrun; subst r w'. exists 1%nat.
    split; [lia |]. split; [now apply Hone |]. discriminate.
Qed.

(** Full pages and then an exception: the loop raises it. *)
Lemma paginate_failure (self : ViventiumIntegration) (path : string)
    (hs : list (string * string)) (e : exn) :
  forall full page acc w w' fuel,
    Forall (fun records => (100 <= List.length records)%nat) full ->
    grid_pages_then_failure self path hs page full e w w' ->
    (List.length full < fuel)%nat ->
    paginate fuel self path hs page acc w = Some (Err e, w').
Proof.
  induction full as [| records more IH];
    intros page acc w w' fuel Hfull Hfail Hfuel;
    (destruct fuel as [| fuel]; [cbn in Hfuel; lia |]);
    cbn [grid_pages_then_failure] in Hfail; cbn [paginate].
  - now rewrite Hfail.
  - destruct Hfail as (w1 & Hreq & Hmore).
    inversion Hfull as [| ? ? Hrec Hrest]; subst.
    rewrite Hreq. cbn [py_len py_iter].
    assert (H0 : Nat.ltb 0 (List.length records) = true)
      by (apply Nat.ltb_lt; lia).
    assert (H1 : Nat.ltb (List.length records) 100 = false)
      by (apply Nat.ltb_ge; lia).
    rewrite H0, H1. apply IH; [assumption | assumption |].
    cbn in Hfuel. lia.
Qed.

(** As long as every page comes back with 100 records or more, the loop
    goes on: no bound on the iterations is enough. *)
Lemma paginate_stuck (self : ViventiumIntegration) (path : string)
    (hs : list (string * string)) (Inv : World -> Prop) :
  (forall page w,
      Inv w ->
      exists records w',
        _make_request self "GET" path hs (grid_params page) w
        = (Ok (JArr records), w')
        /\ (100 <= List.length records)%nat /\ Inv w') ->
  forall fuel page acc w,
    Inv w -> paginate fuel self path hs page acc w = None.
Proof.
  intros Hfull. induction fuel as [| fuel IH]; intros page acc w Hw;
    [reflexivity |].
  cbn [paginate].
  destruct (Hfull page w Hw) as (records & w' & Hreq & Hlen & Hw').
  rewrite Hreq. cbn [py_len py_iter].
  assert (H0 : Nat.ltb 0 (List.length records) = true)
    by (apply Nat.ltb_lt; lia).
  assert (H1 : Nat.ltb (List.length records) 100 = false)
    by (apply Nat.ltb_ge; lia).
  rewrite H0, H1. now apply IH.
Qed.

(** Where the [for] loop over the records stops. *)
Lemma pop_division_keys_error (employee_list : list json) (e : exn) :
  pop_division_keys employee_list = Err e <->
  exists pre record post,
    employee_list = (pre ++ record :: post)%list
    /\ Forall (fun r => has_division_key r = true) pre
    /\ has_division_key record = false
    /\ e = match record with
           | JObj _ => KeyError (JStr "DivisionKey")
           | JArr _ => TypeError
           | _ => AttributeError
           end.
Proof.
  split.
  - induction employee_list as [| record rest IH]; [discriminate |].
    cbn [pop_division_keys].
    destruct (py_pop record "DivisionKey") as [record' | e0] eqn:Hpop.
    + destruct (pop_division_keys rest) as [rest' | e1]; [discriminate |].
      intros Heq. inversion Heq; subst e1.
      destruct (IH eq_refl) as (pre & bad & post & -> & Hpre & Hbad & He).
      exists (record :: pre), bad, post. split; [reflexivity |].
      split; [| split; assumption].
      constructor; [| exact Hpre].
      destruct record; cbn in Hpop; try discriminate.
      cbn. now destruct (dict_mem "DivisionKey" fields).
    + intros Heq. inversion Heq; subst e0.
      exists [], record, rest. split; [reflexivity |].
      split; [constructor |].
      destruct record; cbn in Hpop; inversion Hpop; try (split; reflexivity).
      destruct (dict_mem "DivisionKey" fields) eqn:Hmem; [discriminate |].
      inversion Hpop. split; [exact Hmem | reflexivity].
  - intros (pre & record & post & -> & Hpre & Hbad & ->).
    induction pre as [| r pre IH]; cbn [app pop_division_keys].
    + destruct record; cbn in Hbad |- *; try reflexivity.
      now rewrite Hbad.
    + inversion Hpre as [| ? ? Hr Hrest]; subst.
      destruct r; cbn in Hr; try discriminate.
      cbn [py_pop]. rewrite Hr. now rewrite (IH Hrest).
Qed.

(** The trace of a fetch whose division was resolved. *)
Lemma fetch_trace_resolved (fuel : nat) (self : ViventiumIntegration)
    (token : string) (cookies : cookies_arg) (w w1 w' : World)
    (division_id : json) (r : result (list json)) :
  _get_division_id self token cookies w = (Ok division_id, w1) ->
  fetch_employee_profiles fuel self token cookies w = Some (r, w') ->
  exists count,
    (0 < count)%nat
    /\ sent w' = (sent w
                  ++ division_request self token (cookie_text cookies w)
                  :: map (grid_request (grid_path self division_id)
                            (request_headers self token
                               (cookie_text cookies w)))
                         (page_numbers 1 count))%list
    /\ (forall rs, r = Ok rs ->
                   (100 * (count - 1) <= List.length rs)%nat).
Proof.
  intros Hdiv Hrun. rewrite fetch_unfold, Hdiv in Hrun.
  destruct (get_division_id_world self token cookies w) as [s Hs].
  rewrite Hdiv in Hs. cbn [snd] in Hs. subst w1.
  rewrite cookie_text_after_request in Hrun.
  destruct (paginate _ _ _ _ _ _ _) as [[r0 w3] |] eqn:Hp; [| discriminate].
  apply paginate_progress in Hp.
  destruct Hp as (count & Hpos & Hsent & Hlen).
  assert (w3 = w') by (destruct r0; inversion Hrun; reflexivity). subst w3.
  exists count. split; [exact Hpos |]. split.
  - rewrite Hsent. cbn [after_request sent]. now rewrite <- app_assoc.
  - intros rs ->. destruct r0 as [acc |]; [| discriminate].
    inversion Hrun as [Hpop].
    destruct (pop_division_keys_inv _ _ Hpop) as [_ ->].
    rewrite length_map. specialize (Hlen acc eq_refl). cbn in Hlen. lia.
Qed.
End PaginatorFacts.

Section ResolverMore.
Context `{Rt : PyRuntime} `{Net : Network}.

(** X4. What the resolver does with a listing that is not a non-empty
    sequence of objects: an empty sequence raises [IndexError], an object
    raises [KeyError] for the index 0, a number, a boolean or [null]
    raises [TypeError], and a first entry that is no object (or a string
    in place of the sequence) raises [AttributeError]. *)
Theorem resolver_on_unexpected_listing
    (self : ViventiumIntegration) (token : string) (cookies : cookies_arg)
    (w w' : World) (response : json) :
  _make_request self "GET" (url self ++ "/paystream/v1/divisions")
    (request_headers self token (cookie_text cookies w))
    [("pageNumber", "1"); ("pageSize", "1000")] w = (Ok response, w') ->
  (response = JArr [] ->
   _get_division_id self token cookies w = (Err IndexError, w'))
  /\ (is_object response = true ->
      _get_division_id self token cookies w = (Err (KeyError (JInt 0)), w'))
  /\ (is_scalar response = true ->
      _get_division_id self token cookies w = (Err TypeError, w'))
  /\ (forall first rest,
         response = JArr (first :: rest) -> is_object first = false ->
         _get_division_id self token cookies w = (Err AttributeError, w'))
  /\ (forall s,
         response = JStr s ->
         _get_division_id self token cookies w
         = (Err (match s with
                 | EmptyString => IndexError
                 | String _ _ => AttributeError
                 end), w')).
Proof.
  intros Hreq. rewrite get_division_id_unfold, Hreq.
  split; [| split; [| split; [| split]]].
  - now intros ->.
  - now destruct response.
  - now destruct response.
  - intros first rest -> Hobj. now destruct first.
  - intros s ->. now destruct s.
Qed.

(** X5. A first division with no [id] entry resolves to [None] without
    any error, and the fetch then asks for the grid of the division
    spelled [None]: its first grid request, for page 1, goes to
    [.../divisions/None/grids/EmployeeProfile]. *)
Theorem missing_id_resolves_to_none
    (self : ViventiumIntegration) (token : string) (cookies : cookies_arg)
    (w w1 : World) (fields : list (string * json)) (rest : list json) :
  _make_request self "GET" (url self ++ "/paystream/v1/divisions")
    (request_headers self token (cookie_text cookies w))
    [("pageNumber", "1"); ("pageSize", "1000")] w
  = (Ok (JArr (JObj fields :: rest)), w1) ->
  dict_get "id" fields = None ->
  _get_division_id self token cookies w = (Ok JNull, w1)
  /\ (forall fuel r w',
         fetch_employee_profiles fuel self token cookies w = Some (r, w') ->
         exists reqs,
           sent w' = (sent w1
                        ++ grid_request
                             (url self
                                ++ "/paystream/v1/divisions/None/grids/EmployeeProfile")
                             (request_headers self token
                                (cookie_text cookies w)) 1
                        :: reqs)%list).
Proof.
  intros Hreq Hid.
  assert (Hdiv : _get_division_id self token cookies w = (Ok JNull, w1)).
  { rewrite get_division_id_unfold, Hreq. cbn [py_first py_get].
    now rewrite Hid. }
  split; [exact Hdiv |].
  intros fuel r w' Hrun.
  destruct (fetch_trace_resolved fuel self token cookies w w1 w' JNull r
              Hdiv Hrun) as (count & Hpos & Hsent & _).
  destruct (get_division_id_world self token cookies w) as [s Hs].
  rewrite Hdiv in Hs. cbn [snd] in Hs.
  destruct count as [| count]; [lia |].
  rewrite page_numbers_S in Hsent. cbn [map] in Hsent.
  exists (map (grid_request (grid_path self JNull)
                 (request_headers self token (cookie_text cookies w)))
              (page_numbers (1 + 1) count)).
  rewrite Hsent, Hs. cbn [after_request sent]. rewrite <- app_assoc.
  reflexivity.
Qed.

(** X6. When the resolver raises, the fetch raises the same exception
    with the one request of the resolver sent and no grid request, and it
    does so with no iteration of the loop allowed at all. *)
Theorem failed_resolution_aborts_fetch
    (self : ViventiumIntegration) (token : string) (cookies : cookies_arg)
    (w w1 : World) (e : exn) :
  _get_division_id self token cookies w = (Err e, w1) ->
  (forall fuel,
      fetch_employee_profiles fuel self token cookies w = Some (Err e, w1))
  /\ sent w1 = (sent w ++ [division_request self token
                             (cookie_text cookies w)])%list
  /\ dicts w1 = dicts w.
Proof.
  intros Hdiv. split; [| split].
  - intros fuel. now rewrite fetch_unfold, Hdiv.
  - destruct (get_division_id_world self token cookies w) as [s Hs].
    rewrite Hdiv in Hs. cbn [snd] in Hs. now subst w1.
  - destruct (get_division_id_world self token cookies w) as [s Hs].
    rewrite Hdiv in Hs. cbn [snd] in Hs. now subst w1.
Qed.

(** X7. An exception on a later page discards the pages already fetched:
    when the dispatcher returns full pages and then raises, the fetch
    raises that exception and returns no record. *)
Theorem failure_discards_fetched_pages
    (fuel : nat) (self : ViventiumIntegration) (token : string)
    (cookies : cookies_arg) (w w1 w' : World) (division_id : json)
    (full : list (list json)) (e : exn) :
  _get_division_id self token cookies w = (Ok division_id, w1) ->
  Forall (fun records => (100 <= List.length records)%nat) full ->
  grid_pages_then_failure self (grid_path self division_id)
    (request_headers self token (cookie_text cookies w1)) 1 full e w1 w' ->
  (List.length full < fuel)%nat ->
  fetch_employee_profiles fuel self token cookies w = Some (Err e, w').
Proof.
  intros Hdiv Hfull Hfail Hfuel. rewrite fetch_unfold, Hdiv.
  now rewrite (paginate_failure self _ _ e full 1%Z [] w1 w' fuel
                 Hfull Hfail Hfuel).
Qed.

(** X8. The loop has no bound of its own: on a backend that answers every
    grid request with 100 records or more (one that ignores the page
    number, say), the fetch is still running after any number of
    iterations. *)
Theorem fetch_never_ends_on_full_pages
    (self : ViventiumIntegration) (token : string) (cookies : cookies_arg)
    (w w1 : World) (division_id : json) (Inv : World -> Prop) :
  _get_division_id self token cookies w = (Ok division_id, w1) ->
  Inv w1 ->
  (forall page w2,
      Inv w2 ->
      exists records w3,
        _make_request self "GET" (grid_path self division_id)
          (request_headers self token (cookie_text cookies w1))
          (grid_params page) w2
        = (Ok (JArr records), w3)
        /\ (100 <= List.length records)%nat /\ Inv w3) ->
  forall fuel, fetch_employee_profiles fuel self token cookies w = None.
Proof.
  intros Hdiv Hw1 Hfull fuel. rewrite fetch_unfold, Hdiv.
  now rewrite (paginate_stuck self _ _ Inv Hfull fuel 1%Z [] w1 Hw1).
Qed.

(** X9. The trace of a finished fetch whose division was resolved: the
    request of the resolver, then the grid requests for the pages 1, 2,
    ..., [count], one after the other and all to the grid of that
    division, with [count] at least 1.  When the fetch returned, every
    page but the last brought 100 records or more, so a result of n
    records took at most n / 100 + 1 grid requests. *)
Theorem fetch_trace_and_request_count
    (fuel : nat) (self : ViventiumIntegration) (token : string)
    (cookies : cookies_arg) (w w1 w' : World) (division_id : json)
    (r : result (list json)) :
  _get_division_id self token cookies w = (Ok division_id, w1) ->
  fetch_employee_profiles fuel self token cookies w = Some (r, w') ->
  exists count,
    (0 < count)%nat
    /\ sent w' = (sent w
                  ++ division_request self token (cookie_text cookies w)
                  :: map (grid_request (grid_path self division_id)
                            (request_headers self token
                               (cookie_text cookies w)))
                         (page_numbers 1 count))%list
    /\ (forall rs, r = Ok rs ->
                   (count <= List.length rs / 100 + 1)%nat).
Proof.
  intros Hdiv Hrun.
  destruct (fetch_trace_resolved fuel self token cookies w w1 w'
              division_id r Hdiv Hrun) as (count & Hpos & Hsent & Hlen).
  exists count. split; [exact Hpos |]. split; [exact Hsent |].
  intros rs Hr. specialize (Hlen rs Hr).
  assert (Hdiv100 : (count - 1 <= List.length rs / 100)%nat).
  { apply Nat.div_le_lower_bound; lia. }
  lia.
Qed.

(** X10. Every request of a finished fetch is a GET that carries the
    same eleven headers, in the same order, among them the XSRF token and
    the user agent of the adapter and, as [Cookie], the text the cookies
    argument stood for when the fetch began. *)
Theorem every_request_carries_the_same_headers
    (fuel : nat) (self : ViventiumIntegration) (token : string)
    (cookies : cookies_arg) (w w' : World) (r : result (list json)) :
  fetch_employee_profiles fuel self token cookies w = Some (r, w') ->
  exists reqs,
    sent w' = (sent w ++ reqs)%list
    /\ reqs <> []
    /\ Forall (fun req =>
                 req_method req = "GET"
                 /\ map fst (req_headers req) = header_names
                 /\ dict_get "X-XSRF-TOKEN" (req_headers req) = Some token
                 /\ dict_get "User-Agent" (req_headers req)
                    = Some (user_agent self)
                 /\ dict_get "Cookie" (req_headers req)
                    = Some (cookie_text cookies w))
              reqs.
Proof.
  intros Hrun. apply fetch_requests in Hrun.
  destruct Hrun as (_ & reqs & Hsent & Hall).
  eexists. split; [exact Hsent |]. split; [discriminate |].
  constructor.
  - repeat split.
  - rewrite Forall_forall in *. intros req Hin.
    destruct (Hall req Hin) as [-> ->]. repeat split.
Qed.

(** X12. With the accumulated records in hand, the fetch raises in the
    [for] loop exactly when some record is not an object with a
    [DivisionKey] entry, and the first such record decides the exception:
    [KeyError] for an object without the entry, [TypeError] for a list,
    [AttributeError] for anything else. *)
Theorem first_unstrippable_record_decides_the_error
    (fuel : nat) (self : ViventiumIntegration) (token : string)
    (cookies : cookies_arg) (w w1 w' : World) (division_id : json)
    (employee_list : list json) (e : exn) :
  _get_division_id self token cookies w = (Ok division_id, w1) ->
  paginate fuel self (grid_path self division_id)
    (request_headers self token (cookie_text cookies w1)) 1 [] w1
  = Some (Ok employee_list, w') ->
  (fetch_employee_profiles fuel self token cookies w = Some (Err e, w') <->
   exists pre record post,
     employee_list = (pre ++ record :: post)%list
     /\ Forall (fun r => has_division_key r = true) pre
     /\ has_division_key record = false
     /\ e = match record with
            | JObj _ => KeyError (JStr "DivisionKey")
            | JArr _ => TypeError
            | _ => AttributeError
            end).
Proof.
  intros Hdiv Hpag. rewrite fetch_unfold, Hdiv, Hpag.
  rewrite <- pop_division_keys_error. split.
  - intros Heq. now inversion Heq.
  - now intros ->.
Qed.

(** X13. A first grid page that is no sequence.  A number, a boolean or
    [null] raises [TypeError] at [len].  A non-empty object or string of
    fewer than 100 entries is taken for a last page of records, its keys
    or characters, and the fetch raises [AttributeError] when it comes to
    strip them.  An empty object or string is taken for an empty page and
    the fetch returns the empty list. *)
Theorem first_page_that_is_no_sequence
    (fuel : nat) (self : ViventiumIntegration) (token : string)
    (cookies : cookies_arg) (w w1 w2 : World) (division_id response : json) :
  _get_division_id self token cookies w = (Ok division_id, w1) ->
  _make_request self "GET" (grid_path self division_id)
    (request_headers self token (cookie_text cookies w1)) (grid_params 1) w1
  = (Ok response, w2) ->
  (is_scalar response = true ->
   fetch_employee_profiles (S fuel) self token cookies w
   = Some (Err TypeError, w2))
  /\ (forall fields,
         response = JObj fields ->
         (0 < List.length fields < 100)%nat ->
         fetch_employee_profiles (S fuel) self token cookies w
         = Some (Err AttributeError, w2))
  /\ (forall s,
         response = JStr s ->
         (0 < String.length s < 100)%nat ->
         fetch_employee_profiles (S fuel) self token cookies w
         = Some (Err AttributeError, w2))
  /\ (response = JObj [] \/ response = JStr EmptyString ->
      fetch_employee_profiles (S fuel) self token cookies w
      = Some (Ok [], w2)).
Proof.
  intros Hdiv Hpage. rewrite fetch_unfold, Hdiv. cbn [paginate].
  rewrite Hpage. split; [| split; [| split]].
  - now destruct response.
  - intros fields -> [Hpos Hlt]. cbn [py_len py_iter].
    apply Nat.ltb_lt in Hpos, Hlt. rewrite Hpos, Hlt.
    destruct fields as [| [k v] fields]; [discriminate | reflexivity].
  - intros s -> [Hpos Hlt]. cbn [py_len py_iter].
    apply Nat.ltb_lt in Hpos, Hlt. rewrite Hpos, Hlt.
    destruct s as [| c s]; [discriminate | reflexivity].
  - now intros [-> | ->].
Qed.

End ResolverMore.

(* ================================================================== *)
(** * Further properties of the request parameters and the cookie string *)
(* ================================================================== *)

Lemma str_int_inj (p q : Z) : str_int p = str_int q -> p = q.
Proof.
  unfold str_int. intros Heq. apply DecimalZ.to_int_inj.
  assert (Hsome : Some (Z.to_int p) = Some (Z.to_int q))
    by (rewrite <- !NilEmpty.isi; now rewrite Heq).
  now inversion Hsome.
Qed.

Lemma list_ascii_of_append (a b : string) :
  list_ascii_of_string (a ++ b)
  = (list_ascii_of_string a ++ list_ascii_of_string b)%list.
Proof.
  induction a as [| c a IH]; cbn; [reflexivity | now rewrite IH].
Qed.

Lemma append_inv_tail (x y c : string) : x ++ c = y ++ c -> x = y.
Proof.
  intros Heq. apply (f_equal list_ascii_of_string) in Heq.
  rewrite !list_ascii_of_append in Heq. apply app_inv_tail in Heq.
  rewrite <- (string_of_list_ascii_of_string x),
          <- (string_of_list_ascii_of_string y).
  now rewrite Heq.
Qed.

(** X11. The parameters of the grid request for a page are the one entry
    [queryOptions], whose value is the same JSON text for every page but
    for the page number at its end: an empty query, the filter on active
    employees, the ascending sort on the employee number, the page size
    100 and no where clause.  Different pages give different parameters,
    so the page asked for can be read off a request. *)
Theorem query_options_vary_in_the_page_number_only `{Rt : PyRuntime} :
  (forall page,
      grid_params page
      = [("queryOptions", query_options_head ++ str_int page ++ "}")])
  /\ (forall p q, grid_params p = grid_params q -> p = q).
Proof.
  assert (Htext : forall page,
             grid_params page
             = [("queryOptions", query_options_head ++ str_int page ++ "}")])
    by (intros page; reflexivity).
  split; [exact Htext |].
  intros p q Heq. rewrite !Htext in Heq. inversion Heq as [Hs].
  apply append_inv_tail in Hs. now apply str_int_inj.
Qed.

(** X15. The cookie builder writes keys and values as they are, with no
    quoting and no escaping: a value that holds the separator and a
    further [key=value] text gives the very string of a mapping with that
    further cookie in it.  An empty mapping gives the empty string. *)
Theorem cookie_builder_does_not_escape
    (k v k' v' : string) (rest : list (string * string)) :
  make_cookie_string ((k, v ++ "; " ++ k' ++ "=" ++ v') :: rest)
  = make_cookie_string ((k, v) :: (k', v') :: rest)
  /\ make_cookie_string [] = EmptyString.
Proof.
  split; [| reflexivity].
  rewrite !make_cookie_string_join. cbn [map].
  generalize (map pair_text rest). intros pieces.
  unfold pair_text. cbn [fst snd].
  change (str_join "; " ((k ++ "=" ++ v) :: (k' ++ "=" ++ v') :: pieces))
    with ((k ++ "=" ++ v) ++ "; " ++ str_join "; " ((k' ++ "=" ++ v') :: pieces)).
  destruct pieces as [| piece pieces].
  - cbn [str_join]. now rewrite !str_append_assoc.
  - change (str_join "; " ((k ++ "=" ++ v ++ "; " ++ k' ++ "=" ++ v')
                             :: piece :: pieces))
      with ((k ++ "=" ++ v ++ "; " ++ k' ++ "=" ++ v')
              ++ "; " ++ str_join "; " (piece :: pieces)).
    change (str_join "; " ((k' ++ "=" ++ v') :: piece :: pieces))
      with ((k' ++ "=" ++ v') ++ "; " ++ str_join "; " (piece :: pieces)).
    now rewrite !str_append_assoc.
Qed.

(* ================================================================== *)
(** * Concrete runs *)
(* ================================================================== *)

(** Closes an equation between closed terms by evaluating both sides. *)
Ltac by_evaluation :=
  match goal with
  | |- ?lhs = ?rhs => vm_cast_no_check (@eq_refl _ rhs)
  end.

#[local] Existing Instance plain_runtime.

(** ** Normalizer *)

Lemma success_status_returns_body_or_api_error_witness :
  In (status (garbled_response 200 "OK" "<html>")) [200; 201; 204]%Z
  /\ (forall name msg code,
         _handle_response (Net := vendor 0) (init "UA")
           (garbled_response 200 "OK" "<html>")
         = Err (IntegrationAPIError name msg code) ->
         name = "viventium"
         /\ code = status (garbled_response 200 "OK" "<html>")
         /\ text_of (garbled_response 200 "OK" "<html>") = Text msg).
Proof.
  assert (Hin : In (status (garbled_response 200 "OK" "<html>"))
                   [200; 201; 204]%Z) by (simpl; lia).
  split; [exact Hin |].
  exact (proj1 (proj2 (proj2
           (success_status_returns_body_or_api_error
              (Net := vendor 0) (init "UA")
              (garbled_response 200 "OK" "<html>") Hin)))).
Defined.

(** The error of that response, written out. *)
Example garbled_body_message :
  _handle_response (Net := vendor 0) (init "UA")
    (garbled_response 200 "OK" "<html>")
  = Err (IntegrationAPIError "viventium" "<html>" 200).
Proof. reflexivity. Qed.

(** A 200 whose bytes are not the UTF-8 they are announced as: parsing
    fails, [json()] raises [UnicodeDecodeError], the [except] of line 37
    does not catch it, and no [IntegrationAPIError] is raised. *)
Lemma success_status_undecodable_body_counterexample :
  In (status (undecodable_response 200 "OK")) [200; 201; 204]%Z
  /\ json_of (undecodable_response 200 "OK") = Raises "UnicodeDecodeError"
  /\ _handle_response (Net := vendor 0) (init "UA")
       (undecodable_response 200 "OK")
     = Err (OtherError "UnicodeDecodeError")
  /\ is_api_error (OtherError "UnicodeDecodeError") = false.
Proof.
  repeat split. simpl; lia.
Qed.

(** C4. On a 401 whose body is an HTML page, [json()], called outside any
    [try] at line 48, raises [ContentTypeError], and the exception leaves
    the normalizer as it is: no [IntegrationAuthError] is raised.  The
    success branch guards the same call against the same exception (lines
    35-41). *)
Lemma unauthorized_page_raises_content_type_error :
  In (status unauthorized_page) [400; 401]%Z
  /\ json_of unauthorized_page = WrongContentType
  /\ _handle_response (Net := vendor 0) (init "UA") unauthorized_page
     = Err ContentTypeError
  /\ is_auth_error ContentTypeError = false.
Proof.
  repeat split. simpl; lia.
Qed.

Lemma auth_status_raises_auth_error_witness :
  In (status unauthorized) [400; 401]%Z
  /\ (forall fields,
         json_of unauthorized = Parsed (JObj fields) ->
         _handle_response (Net := vendor 0) (init "UA") unauthorized =
         Err (IntegrationAuthError
                ("ERSP: " ++ str_int (status unauthorized) ++ " - "
                   ++ str_opt (reason unauthorized) ++ " " ++ newline
                   ++ "message: " ++ py_str (field "message" fields)
                   ++ " " ++ newline
                   ++ "error_type: " ++ py_str (field "error_type" fields)))).
Proof.
  assert (Hin : In (status unauthorized) [400; 401]%Z) by (simpl; lia).
  split; [exact Hin |].
  exact (proj2 (proj2
           (auth_status_raises_auth_error
              (Net := vendor 0) (init "UA") unauthorized Hin))).
Defined.

(** The message of that error, written out. *)
Example unauthorized_message :
  _handle_response (Net := vendor 0) (init "UA") unauthorized
  = Err (IntegrationAuthError
           ("ERSP: 401 - Unauthorized " ++ newline
              ++ "message: session expired " ++ newline
              ++ "error_type: auth")).
Proof. reflexivity. Qed.

(** C5. On a 502 whose body is an HTML page, [json()], called outside any
    [try] at line 55, raises [ContentTypeError], and the exception leaves
    the normalizer as it is: no [IntegrationAPIError] is raised.  The
    success branch turns the same exception into an [IntegrationAPIError]
    (lines 35-41). *)
Lemma bad_gateway_page_raises_content_type_error :
  ~ In (status bad_gateway_page) [200; 201; 204; 400; 401]%Z
  /\ json_of bad_gateway_page = WrongContentType
  /\ _handle_response (Net := vendor 0) (init "UA") bad_gateway_page
     = Err ContentTypeError
  /\ is_api_error ContentTypeError = false.
Proof.
  repeat split. simpl; lia.
Qed.

Lemma other_status_raises_api_error_witness :
  ~ In (status server_error) [200; 201; 204; 400; 401]%Z
  /\ (forall e,
         _handle_response (Net := vendor 0) (init "UA") server_error = Err e ->
         is_auth_error e = false).
Proof.
  assert (Hout : ~ In (status server_error) [200; 201; 204; 400; 401]%Z)
    by (simpl; lia).
  split; [exact Hout |].
  exact (proj1 (proj2
           (other_status_raises_api_error
              (Net := vendor 0) (init "UA") server_error Hout))).
Defined.

Example server_error_message :
  _handle_response (Net := vendor 0) (init "UA") server_error
  = Err (IntegrationAPIError "viventium"
           ("ersp: 500 - <CIMultiDictProxy('Content-Type': 'application/json')> "
              ++ newline ++ "message: boom " ++ newline
              ++ "error_type: internal")
           500).
Proof. reflexivity. Qed.

(** The error raised for a 401 is built from its message alone: no
    integration name is passed, and the message does not hold it. *)
Lemma auth_error_without_integration_name_counterexample :
  exists msg,
    _handle_response (Net := vendor 0) (init "UA") unauthorized
    = Err (IntegrationAuthError msg)
    /\ error_integration_name (IntegrationAuthError msg) = None
    /\ str_contains "viventium" msg = false.
Proof.
  eexists. split; [reflexivity |]. split; reflexivity.
Qed.

Lemma api_errors_carry_integration_name_witness :
  exists e,
    _handle_response (Net := vendor 0) (initialize (init "UA") None)
      server_error = Err e
    /\ is_api_error e = true
    /\ error_integration_name e = Some "viventium".
Proof.
  eexists. split; [reflexivity |]. split; [reflexivity |].
  exact (proj1 (api_errors_carry_integration_name
                  (Net := vendor 0) "UA" None server_error _ eq_refl)
           eq_refl).
Defined.

(** ** Pagination *)

Lemma run_summary_inv `{Net : Network} (size : request -> option nat)
    (run : option (result (list json) * World)) (count : nat)
    (urls : list string) (params : list (list (string * string)))
    (sizes : list (option nat)) :
  run_summary size run = Some (count, urls, params, sizes) ->
  exists rs w',
    run = Some (Ok rs, w')
    /\ List.length rs = count
    /\ map req_url (sent w') = urls
    /\ map req_params (tl (sent w')) = params
    /\ map size (tl (sent w')) = sizes.
Proof.
  destruct run as [[[rs | e] w'] |]; cbn; try discriminate.
  intros Heq. inversion Heq; subst. exists rs, w'. repeat split.
Qed.

(** C1. The loop asks for page 1 first and then for the next page after
    every page of 100 records or more; it appends every non-empty page and
    stops on the first empty page, which adds nothing, or on the first page
    of fewer than 100 records, which is appended: on a backend that serves
    the pages [full] and then [last], it returns their concatenation after
    one request for each, given fuel for that many iterations.  A fetch
    from a vendor holding 250 active employees makes three grid requests,
    for the pages 1, 2 and 3, answered with 100, 100 and 50 records, and
    returns 250 records; from a vendor holding 200 it makes three grid
    requests as well, the third answered with an empty sequence, and
    returns 200 records. *)
Theorem pagination_stops_on_empty_or_short_page :
  (forall (Rt : PyRuntime) (Net : Network) (self : ViventiumIntegration)
          (path : string) (hs : list (string * string))
          (full : list (list json)) (last : list json) (w w' : World)
          (fuel : nat),
      Forall (fun records => (100 <= List.length records)%nat) full ->
      (List.length last < 100)%nat ->
      grid_pages_served self path hs 1 full last w w' ->
      (List.length full < fuel)%nat ->
      paginate fuel self path hs 1 [] w
      = Some (Ok (concat full ++ last)%list, w')
      /\ sent w' = (sent w ++ map (grid_request path hs)
                                 (page_numbers 1 (S (List.length full))))%list)
  /\ (forall extra,
         exists rs w',
           fetch_employee_profiles (Net := vendor 250) (3 + extra)
             (init "UA") "tok123" (CookiesDict 0)
             (start (Net := vendor 250) tt)
           = Some (Ok rs, w')
           /\ List.length rs = 250%nat
           /\ map req_url (sent w')
              = [ "https://hcm.viventium.com/api/paystream/v1/divisions";
                  grid_url; grid_url; grid_url ]
           /\ map req_params (tl (sent w'))
              = [grid_params 1; grid_params 2; grid_params 3]
           /\ map (served_size 250) (tl (sent w'))
              = [Some 100%nat; Some 100%nat; Some 50%nat])
  /\ (forall extra,
         exists rs w',
           fetch_employee_profiles (Net := vendor 200) (3 + extra)
             (init "UA") "tok123" (CookiesDict 0)
             (start (Net := vendor 200) tt)
           = Some (Ok rs, w')
           /\ List.length rs = 200%nat
           /\ map req_url (sent w')
              = [ "https://hcm.viventium.com/api/paystream/v1/divisions";
                  grid_url; grid_url; grid_url ]
           /\ map req_params (tl (sent w'))
              = [grid_params 1; grid_params 2; grid_params 3]
           /\ map (served_size 200) (tl (sent w'))
              = [Some 100%nat; Some 100%nat; Some 0%nat]).
Proof.
  split; [| split].
  - intros Rt Net self path hs full last w w' fuel Hfull Hlast Hserved Hfuel.
    exact (paginate_served self path hs last Hlast full 1%Z [] w w' fuel
             Hfull Hserved Hfuel).
  - intros extra. apply run_summary_inv. vm_compute. reflexivity.
  - intros extra. apply run_summary_inv. vm_compute. reflexivity.
Qed.

Lemma pagination_stops_on_empty_or_short_page_witness :
  paginate (Net := vendor 150) 2 (init "UA") grid_url
    (demo_headers (vendor 150)) 1 [] (resolved 150)
  = Some (Ok (concat [page_slice (employees 150) 1]
                ++ page_slice (employees 150) 2)%list,
          paged 150 2 (paged 150 1 (resolved 150)))
  /\ sent (paged 150 2 (paged 150 1 (resolved 150)))
     = (sent (resolved 150)
          ++ map (grid_request grid_url (demo_headers (vendor 150)))
                 (page_numbers 1 2))%list.
Proof.
  apply (proj1 pagination_stops_on_empty_or_short_page
           plain_runtime (vendor 150) (init "UA") grid_url
           (demo_headers (vendor 150))
           [page_slice (employees 150) 1] (page_slice (employees 150) 2)).
  - constructor; [| constructor]. apply Nat.leb_le. by_evaluation.
  - apply Nat.ltb_lt. by_evaluation.
  - exists (paged 150 1 (resolved 150)).
    split; [| cbn [grid_pages_served]]; by_evaluation.
  - cbn. lia.
Defined.

(** ** Division resolver and cookies *)

Lemma division_resolver_returns_first_id_witness :
  transport_of listing_adapter tt
    {| req_method := "GET";
       req_url := "https://hcm.viventium.com/api/paystream/v1/divisions";
       req_headers := request_headers listing_adapter "tok123" "sess=abc";
       req_params := [("pageNumber", "1"); ("pageSize", "1000")] |}
  = (Ok (json_response 200 "OK" two_divisions), tt)
  /\ fst (_get_division_id listing_adapter "tok123" (CookiesStr "sess=abc")
            (start (Net := listing_vendor) tt))
     = Ok (JStr "D1").
Proof.
  split; [reflexivity |].
  apply (proj2 (proj2
           (division_resolver_returns_first_id (Net := listing_vendor)
              "UA" None "tok123" (CookiesStr "sess=abc")
              (start (Net := listing_vendor) tt)))
           (json_response 200 "OK" two_divisions) tt).
  - reflexivity.
  - simpl. lia.
  - reflexivity.
Defined.

Lemma cookie_string_has_every_pair_in_order_witness :
  Forall plain_pair [("sess", "abc"); ("theme", "dark")]
  /\ make_cookie_string [("sess", "abc"); ("theme", "dark")]
     = "sess=abc; theme=dark"
  /\ parse_cookie_string
       (make_cookie_string [("sess", "abc"); ("theme", "dark")])
     = [("sess", "abc"); ("theme", "dark")].
Proof.
  assert (Hall : Forall plain_pair [("sess", "abc"); ("theme", "dark")])
    by (repeat constructor).
  split; [exact Hall |]. split; [reflexivity |].
  exact (proj1 (proj2 (cookie_string_has_every_pair_in_order
                         (Rt := plain_runtime) (Net := vendor 0))) _ Hall).
Defined.

Lemma caller_cookie_dict_not_mutated_witness :
  fetch_employee_profiles (Net := vendor 150) 2 (init "UA") "tok123"
    (CookiesDict 0) (start (Net := vendor 150) tt)
  = Some (Ok (map without_division_key (employees 150)),
          paged 150 2 (paged 150 1 (resolved 150)))
  /\ dicts (paged 150 2 (paged 150 1 (resolved 150))) 0
     = dicts (start (Net := vendor 150) tt) 0.
Proof.
  assert (Hrun :
    fetch_employee_profiles (Net := vendor 150) 2 (init "UA") "tok123"
      (CookiesDict 0) (start (Net := vendor 150) tt)
    = Some (Ok (map without_division_key (employees 150)),
            paged 150 2 (paged 150 1 (resolved 150))))
    by (by_evaluation).
  split; [exact Hrun |].
  exact (proj2 (proj2 (caller_cookie_dict_not_mutated
                         (Net := vendor 150) (init "UA") "tok123" 0
                         (start (Net := vendor 150) tt)) 2 _ _ Hrun)).
Defined.

(** ** Empty grids and the DivisionKey entry *)

Lemma empty_first_page_returns_empty_list_witness :
  fetch_employee_profiles (Net := vendor 0) 1 (init "UA") "tok123"
    (CookiesDict 0) (start (Net := vendor 0) tt)
  = Some (Ok [], paged 0 1 (resolved 0))
  /\ pop_division_keys [] = Ok [].
Proof.
  apply (empty_first_page_returns_empty_list (Net := vendor 0)
           0 (init "UA") "tok123" (CookiesDict 0)
           (start (Net := vendor 0) tt) (resolved 0) (paged 0 1 (resolved 0))
           (JStr "42")).
  - by_evaluation.
  - by_evaluation.
Defined.

(** A grid whose records have no [DivisionKey] entry: the fetch raises
    [KeyError] instead of returning the records as they are. *)
Lemma missing_division_key_raises_counterexample :
  Forall (fun record => has_division_key record = false) bare_employees
  /\ option_map fst
       (fetch_employee_profiles (Net := bare_vendor) 1 (init "UA") "tok123"
          (CookiesDict 0) (start (Net := bare_vendor) tt))
     = Some (Err (KeyError (JStr "DivisionKey"))).
Proof.
  split; [repeat constructor | by_evaluation].
Qed.

Lemma division_key_removed_from_every_record_witness :
  Forall (fun record => has_division_key record = true) (employees 2)
  /\ fetch_employee_profiles (Net := vendor 2) 1 (init "UA") "tok123"
       (CookiesDict 0) (start (Net := vendor 2) tt)
     = Some (Ok (map without_division_key (employees 2)),
             paged 2 1 (resolved 2)).
Proof.
  assert (Hall : Forall (fun record => has_division_key record = true)
                        (employees 2)) by (repeat constructor).
  split; [exact Hall |].
  apply (proj1 (division_key_removed_from_every_record (Net := vendor 2)
                  1 (init "UA") "tok123" (CookiesDict 0)
                  (start (Net := vendor 2) tt) (resolved 2)
                  (paged 2 1 (resolved 2)) (JStr "42") (employees 2)
                  ltac:(by_evaluation)
                  ltac:(by_evaluation))).
  exact Hall.
Defined.

(** The two records of that run, as returned. *)
Example two_records_without_division_key :
  map without_division_key (employees 2)
  = [ JObj [("EmployeeNumber", JInt 1); ("EmployeeStatus", JStr "Active")];
      JObj [("EmployeeNumber", JInt 2); ("EmployeeStatus", JStr "Active")] ].
Proof. reflexivity. Qed.

(** ** Runs for the further properties *)

Lemma error_status_with_unusable_body_witness :
  ~ In (status unauthorized_page) [200; 201; 204]%Z
  /\ json_of unauthorized_page = WrongContentType
  /\ _handle_response (Net := vendor 0) (init "UA") unauthorized_page
     = Err ContentTypeError.
Proof.
  assert (Hs : ~ In (status unauthorized_page) [200; 201; 204]%Z)
    by (simpl; lia).
  split; [exact Hs |]. split; [reflexivity |].
  exact (proj1 (proj2 (error_status_with_unusable_body
                         (Net := vendor 0) (init "UA") unauthorized_page Hs))
           eq_refl).
Defined.

(** An account with no division at all. *)
Lemma resolver_on_unexpected_listing_witness :
  _get_division_id scripted_adapter "tok123" (CookiesStr "sess=abc")
    (scripted_start [answer (JArr [])])
  = (Err IndexError, scripted_resolved [answer (JArr [])]).
Proof.
  apply (proj1 (resolver_on_unexpected_listing scripted_adapter "tok123"
                  (CookiesStr "sess=abc") (scripted_start [answer (JArr [])])
                  (scripted_resolved [answer (JArr [])]) (JArr [])
                  ltac:(by_evaluation))).
  reflexivity.
Defined.

Lemma missing_id_resolves_to_none_witness :
  dict_get "id" [("name", JStr "HQ")] = None
  /\ _get_division_id scripted_adapter "tok123" (CookiesStr "sess=abc")
       (scripted_start [answer nameless_division])
     = (Ok JNull, scripted_resolved [answer nameless_division]).
Proof.
  split; [reflexivity |].
  apply (proj1 (missing_id_resolves_to_none scripted_adapter "tok123"
                  (CookiesStr "sess=abc")
                  (scripted_start [answer nameless_division])
                  (scripted_resolved [answer nameless_division])
                  [("name", JStr "HQ")] []
                  ltac:(by_evaluation) eq_refl)).
Defined.

(** The connection fails on the first request. *)
Lemma failed_resolution_aborts_fetch_witness :
  _get_division_id scripted_adapter "tok123" (CookiesStr "sess=abc")
    (scripted_start [])
  = (Err ClientError, scripted_resolved [])
  /\ fetch_employee_profiles 0 scripted_adapter "tok123"
       (CookiesStr "sess=abc") (scripted_start [])
     = Some (Err ClientError, scripted_resolved []).
Proof.
  assert (Hdiv :
    _get_division_id scripted_adapter "tok123" (CookiesStr "sess=abc")
      (scripted_start [])
    = (Err ClientError, scripted_resolved [])) by by_evaluation.
  split; [exact Hdiv |].
  exact (proj1 (failed_resolution_aborts_fetch scripted_adapter "tok123"
                  (CookiesStr "sess=abc") (scripted_start [])
                  (scripted_resolved []) ClientError Hdiv) 0%nat).
Defined.

(** One full page, then the connection fails. *)
Lemma failure_discards_fetched_pages_witness :
  fetch_employee_profiles 2 scripted_adapter "tok123" (CookiesStr "sess=abc")
    (scripted_start [answer one_division; answer (JArr (employees 100))])
  = Some (Err ClientError,
          scripted_paged 2
            (scripted_paged 1
               (scripted_resolved
                  [answer one_division; answer (JArr (employees 100))]))).
Proof.
  apply (failure_discards_fetched_pages 2 scripted_adapter "tok123"
           (CookiesStr "sess=abc")
           (scripted_start [answer one_division; answer (JArr (employees 100))])
           (scripted_resolved
              [answer one_division; answer (JArr (employees 100))])
           (scripted_paged 2
              (scripted_paged 1
                 (scripted_resolved
                    [answer one_division; answer (JArr (employees 100))])))
           (JStr "42") [employees 100] ClientError).
  - by_evaluation.
  - constructor; [| constructor]. apply Nat.leb_le. by_evaluation.
  - exists (scripted_paged 1
              (scripted_resolved
                 [answer one_division; answer (JArr (employees 100))])).
    split; [| cbn [grid_pages_then_failure]]; by_evaluation.
  - cbn. lia.
Defined.

Lemma stuck_vendor_serves_full_pages (page : Z)
    (w : World (Net := stuck_vendor)) :
  exists records w',
    _make_request (Net := stuck_vendor) (init "UA") "GET"
      (grid_path (Net := stuck_vendor) (init "UA") (JStr "42"))
      (request_headers (Net := stuck_vendor) (init "UA") "tok123" "sess=abc")
      (grid_params page) w
    = (Ok (JArr records), w')
    /\ (100 <= List.length records)%nat /\ True.
Proof.
  exists (employees 100).
  eexists. split; [| split; [| exact I]].
  - rewrite make_request_round_trip. reflexivity.
  - unfold employees. rewrite length_map, length_seq. lia.
Qed.

Lemma fetch_never_ends_on_full_pages_witness :
  fetch_employee_profiles (Net := stuck_vendor) 40 (init "UA") "tok123"
    (CookiesStr "sess=abc") (start (Net := stuck_vendor) tt)
  = None.
Proof.
  apply (fetch_never_ends_on_full_pages (Net := stuck_vendor) (init "UA")
           "tok123" (CookiesStr "sess=abc") (start (Net := stuck_vendor) tt)
           (snd (_get_division_id (Net := stuck_vendor) (init "UA") "tok123"
                   (CookiesStr "sess=abc") (start (Net := stuck_vendor) tt)))
           (JStr "42") (fun _ => True)).
  - by_evaluation.
  - exact I.
  - intros page w2 _. apply stuck_vendor_serves_full_pages.
Defined.

Lemma fetch_trace_and_request_count_witness :
  exists count,
    (0 < count)%nat
    /\ sent (paged 150 2 (paged 150 1 (resolved 150)))
       = (sent (start (Net := vendor 150) tt)
            ++ division_request (Net := vendor 150) (init "UA") "tok123"
                 (cookie_text (CookiesDict 0) (start (Net := vendor 150) tt))
            :: map (grid_request
                      (grid_path (Net := vendor 150) (init "UA") (JStr "42"))
                      (request_headers (Net := vendor 150) (init "UA") "tok123"
                         (cookie_text (CookiesDict 0)
                            (start (Net := vendor 150) tt))))
                   (page_numbers 1 count))%list
    /\ (forall rs,
           Ok (map without_division_key (employees 150)) = Ok rs ->
           (count <= List.length rs / 100 + 1)%nat).
Proof.
  apply (fetch_trace_and_request_count (Net := vendor 150) 2 (init "UA")
           "tok123" (CookiesDict 0) (start (Net := vendor 150) tt)
           (resolved 150) (paged 150 2 (paged 150 1 (resolved 150)))
           (JStr "42") (Ok (map without_division_key (employees 150)))).
  - by_evaluation.
  - by_evaluation.
Defined.

Lemma every_request_carries_the_same_headers_witness :
  exists reqs,
    sent (paged 2 1 (resolved 2))
    = (sent (start (Net := vendor 2) tt) ++ reqs)%list
    /\ reqs <> []
    /\ Forall (fun req =>
                 req_method req = "GET"
                 /\ map fst (req_headers req) = header_names
                 /\ dict_get "X-XSRF-TOKEN" (req_headers req) = Some "tok123"
                 /\ dict_get "User-Agent" (req_headers req) = Some "UA"
                 /\ dict_get "Cookie" (req_headers req)
                    = Some "sess=abc; theme=dark")
              reqs.
Proof.
  apply (every_request_carries_the_same_headers (Net := vendor 2) 1
           (init "UA") "tok123" (CookiesDict 0) (start (Net := vendor 2) tt)
           (paged 2 1 (resolved 2))
           (Ok (map without_division_key (employees 2)))).
  by_evaluation.
Defined.

Lemma first_unstrippable_record_decides_the_error_witness :
  fetch_employee_profiles (Net := bare_vendor) 1 (init "UA") "tok123"
    (CookiesDict 0) (start (Net := bare_vendor) tt)
  = Some (Err (KeyError (JStr "DivisionKey")),
          snd (_make_request (Net := bare_vendor) (init "UA") "GET" grid_url
                 (demo_headers bare_vendor) (grid_params 1)
                 (snd (_get_division_id (Net := bare_vendor) (init "UA")
                         "tok123" (CookiesDict 0)
                         (start (Net := bare_vendor) tt))))).
Proof.
  apply (proj2 (first_unstrippable_record_decides_the_error
                  (Net := bare_vendor) 1 (init "UA") "tok123" (CookiesDict 0)
                  (start (Net := bare_vendor) tt)
                  (snd (_get_division_id (Net := bare_vendor) (init "UA")
                          "tok123" (CookiesDict 0)
                          (start (Net := bare_vendor) tt)))
                  _ (JStr "42") bare_employees
                  (KeyError (JStr "DivisionKey"))
                  ltac:(by_evaluation) ltac:(by_evaluation))).
  exists [], (JObj [("EmployeeNumber", JInt 1);
                    ("EmployeeStatus", JStr "Active")]),
         [JObj [("EmployeeNumber", JInt 2);
                ("EmployeeStatus", JStr "Active")]].
  repeat split. constructor.
Defined.

(** The grid answers 200 with an error envelope in place of a page. *)
Lemma first_page_that_is_no_sequence_witness :
  (0 < List.length [("error", JStr "maintenance"); ("retryAfter", JInt 30)]
   < 100)%nat
  /\ fetch_employee_profiles 1 scripted_adapter "tok123"
       (CookiesStr "sess=abc")
       (scripted_start [answer one_division; answer envelope])
     = Some (Err AttributeError,
             scripted_paged 1
               (scripted_resolved [answer one_division; answer envelope])).
Proof.
  assert (Hlen : (0 < List.length [("error", JStr "maintenance");
                                   ("retryAfter", JInt 30)] < 100)%nat)
    by (cbn; lia).
  split; [exact Hlen |].
  exact (proj1 (proj2 (first_page_that_is_no_sequence 0 scripted_adapter
                         "tok123" (CookiesStr "sess=abc")
                         (scripted_start [answer one_division; answer envelope])
                         (scripted_resolved
                            [answer one_division; answer envelope])
                         (scripted_paged 1
                            (scripted_resolved
                               [answer one_division; answer envelope]))
                         (JStr "42") envelope
                         ltac:(by_evaluation) ltac:(by_evaluation)))
           _ eq_refl Hlen).
Defined.
